(** * parsedatetime/context.py: accuracy contexts and the per-thread context stack

    A shallow embedding of [pdtContext] and [pdtContextStack].  Python
    integers are unbounded, so the accuracy mask is a [Z] and [|], [&] are
    [Z.lor], [Z.land].  Methods that mutate [self] or raise are computations
    in a small state-and-exception monad whose state survives a raise, as a
    Python object keeps the mutations made before an exception. *)

From Stdlib Require Import ZArith Lia Bool.
From stdpp Require Import base option list strings gmap.

Local Open Scope string_scope.
Local Open Scope list_scope.
Local Open Scope Z_scope.

(** ** Exceptions and the state-and-exception monad *)

Inductive exn : Type :=
  | KeyError (key : string)
  | IndexError
  | AttributeError (attr : string)
  | RuntimeError (msg : string).

(** [KeyError] and [IndexError] are the two subclasses of [LookupError]. *)
Definition is_LookupError (e : exn) : bool :=
  match e with
  | KeyError _ | IndexError => true
  | AttributeError _ | RuntimeError _ => false
  end.

Definition is_IndexError (e : exn) : bool :=
  match e with
  | IndexError => true
  | _ => false
  end.

Inductive result (A : Type) : Type :=
  | Return (v : A)
  | Raise (e : exn).
Arguments Return {A} v.
Arguments Raise {A} e.

Module Py.

Definition M (S A : Type) : Type := S -> result A * S.

Definition ret {S A} (v : A) : M S A := fun s => (Return v, s).

Definition bind {S A B} (m : M S A) (k : A -> M S B) : M S B :=
  fun s =>
    match m s with
    | (Return v, s') => k v s'
    | (Raise e, s') => (Raise e, s')
    end.

Definition raise {S A} (e : exn) : M S A := fun s => (Raise e, s).

Definition lift {S A} (r : result A) : M S A := fun s => (r, s).

Definition modify {S} (f : S -> S) : M S unit := fun s => (Return tt, f s).

(** [try: m except E: h], where [handles] recognises the class [E]. *)
Definition try_except {S A} (m : M S A) (handles : exn -> bool) (h : M S A)
  : M S A :=
  fun s =>
    match m s with
    | (Return v, s') => (Return v, s')
    | (Raise e, s') => if handles e then h s' else (Raise e, s')
    end.

(** What a caller observes of a call it guards itself: the value or the
    exception, the state staying as the call left it. *)
Definition attempt {S A} (m : M S A) : M S (result A) :=
  fun s => let '(r, s') := m s in (Return r, s').

Definition exec {S A} (m : M S A) (s : S) : S := snd (m s).
Definition eval {S A} (m : M S A) (s : S) : result A := fst (m s).

End Py.

Declare Scope py_scope.
Delimit Scope py_scope with py.
Notation "x <- m ;; k" := (Py.bind m (fun x => k))
  (at level 100, m at next level, right associativity) : py_scope.
Notation "m ;;; k" := (Py.bind m (fun _ => k))
  (at level 100, right associativity) : py_scope.
Local Open Scope py_scope.

(** ** Python values reaching [updateAccuracy] *)

(** Instances of [int]; [bool] is a subclass of [int]. *)
Inductive pynum : Type :=
  | NBool (b : bool)
  | NInt (z : Z).

(** [int(v)], also the value [v] has as an operand of [|]. *)
Definition int_ (v : pynum) : Z :=
  match v with
  | NBool b => Z.b2z b
  | NInt z => z
  end.

(** [bool(z)] for an integer. *)
Definition bool_ (z : Z) : bool := negb (z =? 0).

(** [b and n] for a bool [b]: [b] itself when it is false, else [n]. *)
Definition py_and (b : bool) (n : Z) : pynum :=
  if b then NInt n else NBool b.

Inductive pyval : Type :=
  | PyNum (n : pynum)
  | PyStr (s : string).

Definition PyInt (z : Z) : pyval := PyNum (NInt z).

(** [s.upper()] on the ASCII letters, which is what it does to the names of
    the accuracy mapping, the only strings it is applied to. *)
Definition upper_ascii (c : Ascii.ascii) : Ascii.ascii :=
  let n := Ascii.N_of_ascii c in
  if ((97 <=? n) && (n <=? 122))%N then Ascii.ascii_of_N (n - 32) else c.

Fixpoint upper (s : string) : string :=
  match s with
  | EmptyString => EmptyString
  | String c rest => String (upper_ascii c) (upper rest)
  end.

(** ** pdtContext *)

Record pdtContext : Type := mk_pdtContext { accuracy : Z }.

Module pdtContext.

Definition ACU_YEAR : Z := 1.
Definition ACU_MONTH : Z := 2.
Definition ACU_WEEK : Z := 4.
Definition ACU_DAY : Z := 8.
Definition ACU_HALFDAY : Z := 16.
Definition ACU_HOUR : Z := 32.
Definition ACU_MIN : Z := 64.
Definition ACU_SEC : Z := 128.
Definition ACU_NOW : Z := 256.

Definition ACU_DATE : Z :=
  Z.lor (Z.lor (Z.lor ACU_YEAR ACU_MONTH) ACU_WEEK) ACU_DAY.
Definition ACU_TIME : Z :=
  Z.lor (Z.lor (Z.lor (Z.lor ACU_HALFDAY ACU_HOUR) ACU_MIN) ACU_SEC) ACU_NOW.

Definition _ACCURACY_REVERSE_MAPPING : gmap string Z :=
  list_to_map
    [ ("year", ACU_YEAR); ("years", ACU_YEAR);
      ("month", ACU_MONTH); ("months", ACU_MONTH);
      ("week", ACU_WEEK); ("weeks", ACU_WEEK);
      ("day", ACU_DAY); ("days", ACU_DAY);
      ("halfday", ACU_HALFDAY); ("morning", ACU_HALFDAY);
      ("afternoon", ACU_HALFDAY); ("evening", ACU_HALFDAY);
      ("night", ACU_HALFDAY); ("tonight", ACU_HALFDAY);
      ("midnight", ACU_HALFDAY);
      ("hour", ACU_HOUR); ("hours", ACU_HOUR);
      ("min", ACU_MIN); ("minute", ACU_MIN);
      ("mins", ACU_MIN); ("minutes", ACU_MIN);
      ("sec", ACU_SEC); ("second", ACU_SEC);
      ("secs", ACU_SEC); ("seconds", ACU_SEC);
      ("now", ACU_NOW) ].

(** [d[key]] on the reverse mapping. *)
Definition getitem (d : gmap string Z) (key : string) : result Z :=
  match d !! key with
  | Some v => Return v
  | None => Raise (KeyError key)
  end.

(** [pdtContext(accuracy)]; the default argument is 0. *)
Definition __init__ (accuracy : Z) : pdtContext := mk_pdtContext accuracy.

(** The first two lines of the loop body of [updateAccuracy]: the integer
    that is OR'ed into the mask for the element [acc].  An instance of [int]
    is taken as it is, anything else is looked up in the reverse mapping. *)
Definition resolve (acc : pyval) : result Z :=
  match acc with
  | PyNum n => Return (int_ n)
  | PyStr s => getitem _ACCURACY_REVERSE_MAPPING s
  end.

(** [self.accuracy |= acc]. *)
Definition ior (acc : Z) : Py.M pdtContext unit :=
  Py.modify (fun self => mk_pdtContext (Z.lor (accuracy self) acc)).

Fixpoint updateAccuracy (accs : list pyval) : Py.M pdtContext unit :=
  match accs with
  | [] => Py.ret tt
  | acc :: rest =>
      acc' <- Py.lift (resolve acc) ;;
      ior acc' ;;;
      updateAccuracy rest
  end.

Definition update (context : pdtContext) : Py.M pdtContext unit :=
  updateAccuracy [PyInt (accuracy context)].

Definition hasDate (self : pdtContext) : bool :=
  bool_ (Z.land (accuracy self) ACU_DATE).

Definition hasTime (self : pdtContext) : bool :=
  bool_ (Z.land (accuracy self) ACU_TIME).

Definition dateTimeFlag (self : pdtContext) : Z :=
  Z.lor (int_ (py_and (hasDate self) 1)) (int_ (py_and (hasTime self) 2)).

Definition hasDateOrTime (self : pdtContext) : bool :=
  bool_ (accuracy self).

(** Successive calls [self.updateAccuracy( *accs )] on one context; an
    exception ends the sequence. *)
Fixpoint updateAccuracy_calls (calls : list (list pyval))
  : Py.M pdtContext unit :=
  match calls with
  | [] => Py.ret tt
  | accs :: rest =>
      updateAccuracy accs ;;;
      updateAccuracy_calls rest
  end.

(** The flag value an element resolves to, if it does. *)
Definition flag_of (acc : pyval) : option Z :=
  match resolve acc with
  | Return z => Some z
  | Raise _ => None
  end.

Definition flags_of (accs : list pyval) : list Z := omap flag_of accs.

(** Bitwise union of a list of masks. *)
Definition union (flags : list Z) : Z := foldr Z.lor 0 flags.

(** The element is an integer or a label of the reverse mapping. *)
Definition resolves (acc : pyval) : Prop :=
  exists z, resolve acc = Return z.

(** A textual label that the reverse mapping does not have. *)
Definition unknown_label (acc : pyval) : Prop :=
  exists s, acc = PyStr s /\ _ACCURACY_REVERSE_MAPPING !! s = None.

Definition _ACCURACY_MAPPING : list (Z * string) :=
  [ (ACU_YEAR, "year");
    (ACU_MONTH, "month");
    (ACU_WEEK, "week");
    (ACU_DAY, "day");
    (ACU_HALFDAY, "halfday");
    (ACU_HOUR, "hour");
    (ACU_MIN, "min");
    (ACU_SEC, "sec");
    (ACU_NOW, "now") ].

(** The loop of [__repr__]: the pairs of [mapping], in order, that pass the
    test [acc & self.accuracy]. *)
Fixpoint flags_set (mapping : list (Z * string)) (self : pdtContext)
  : list (Z * string) :=
  match mapping with
  | [] => []
  | (acc, name) :: rest =>
      if bool_ (Z.land acc (accuracy self))
      then (acc, name) :: flags_set rest self
      else flags_set rest self
  end.

Definition __repr__ (self : pdtContext) : string :=
  let accuracy_repr :=
    (fun p => String.append "pdtContext.ACU_" (upper (snd p)))
      <$> flags_set _ACCURACY_MAPPING self in
  let accuracy_repr :=
    match accuracy_repr with
    | [] => ""
    | _ :: _ => String.append "accuracy=" (String.concat " | " accuracy_repr)
    end in
  String.append "pdtContext(" (String.append accuracy_repr ")").

Definition __eq__ (self ctx : pdtContext) : bool :=
  accuracy self =? accuracy ctx.

(** All nine named bits. *)
Definition ACU_ALL : Z := Z.lor ACU_DATE ACU_TIME.

(** An element that cannot bring in a bit outside the nine flags: any
    label, or an integer made of named bits. *)
Definition named_arg (a : pyval) : Prop :=
  match a with
  | PyStr _ => True
  | PyNum n => Z.land (int_ n) ACU_ALL = int_ n
  end.

End pdtContext.

(** ** pdtContextStack *)

(** [threading.local()] gives every thread its own attribute namespace.  The
    only attribute this class uses is [stack], so the thread-local object is
    a finite map from thread identifiers to that thread's list; a thread
    absent from the map has no [stack] attribute.  Every method takes the
    identifier [t] of the thread that calls it. *)

Module pdtContextStack.

Abbreviation local A := (gmap nat (list A)).

Section Stack.

Context {A : Type}.

(** Reading [self.__local.stack] in thread [t]. *)
Definition getattr_stack (t : nat) : Py.M (local A) (list A) :=
  fun l =>
    match l !! t with
    | Some s => (Return s, l)
    | None => (Raise (AttributeError "stack"), l)
    end.

(** The list object of thread [t] after a mutation of it. *)
Definition store_stack (t : nat) (s : list A) : Py.M (local A) unit :=
  Py.modify (fun l => <[t := s]> l).

(** [list.pop()]: the last element and the list without it ([last] here is
    the list library's, [None] on the empty list). *)
Definition list_pop (s : list A) : result (A * list A) :=
  match last s with
  | Some x => Return (x, removelast s)
  | None => Raise IndexError
  end.

(** [s[-1]]. *)
Definition list_getitem_last (s : list A) : result A :=
  match last s with
  | Some x => Return x
  | None => Raise IndexError
  end.

(** Run by the constructing thread [t]: a fresh thread-local object on
    which only [t] has the attribute [stack]. *)
Definition __init__ (t : nat) : local A := <[t := []]> ∅.

Definition push (t : nat) (ctx : A) : Py.M (local A) unit :=
  s <- getattr_stack t ;;
  store_stack t (s ++ [ctx]).

(** [None] is Python's [None]. *)
Definition pop (t : nat) : Py.M (local A) (option A) :=
  Py.try_except
    (s <- getattr_stack t ;;
     r <- Py.lift (list_pop s) ;;
     store_stack t (snd r) ;;;
     Py.ret (Some (fst r)))
    is_IndexError
    (Py.ret None).

Definition last (t : nat) : Py.M (local A) A :=
  Py.try_except
    (s <- getattr_stack t ;;
     Py.lift (list_getitem_last s))
    is_IndexError
    (Py.raise (RuntimeError "context stack is empty")).

(** [not s] for a list. *)
Definition isEmpty (t : nat) : Py.M (local A) bool :=
  s <- getattr_stack t ;;
  Py.ret (match s with [] => true | _ :: _ => false end).

(** Calls made by one thread, and what its [pop] calls returned. *)
Inductive call : Type :=
  | Push (ctx : A)
  | Pop.

Fixpoint run (t : nat) (calls : list call) : Py.M (local A) (list (option A)) :=
  match calls with
  | [] => Py.ret []
  | Push ctx :: rest =>
      push t ctx ;;;
      run t rest
  | Pop :: rest =>
      r <- pop t ;;
      rs <- run t rest ;;
      Py.ret (r :: rs)
  end.

(** How many of the calls are pushes, and how many are pops. *)
Fixpoint pushes (calls : list call) : nat :=
  match calls with
  | [] => 0
  | Push _ :: rest => S (pushes rest)
  | Pop :: rest => pushes rest
  end.

Fixpoint pops (calls : list call) : nat :=
  match calls with
  | [] => 0
  | Push _ :: rest => pops rest
  | Pop :: rest => S (pops rest)
  end.

(** The scenario: [last] guarded on the fresh stack, two pushes, [last],
    three pops and [isEmpty], all in thread [t]. *)
Definition scenario (t : nat) (ctx1 ctx2 : A)
  : Py.M (local A) (result A * A * option A * option A * option A * bool) :=
  r0 <- Py.attempt (last t) ;;
  push t ctx1 ;;;
  push t ctx2 ;;;
  r1 <- last t ;;
  r2 <- pop t ;;
  r3 <- pop t ;;
  r4 <- pop t ;;
  r5 <- isEmpty t ;;
  Py.ret (r0, r1, r2, r3, r4, r5).

(** One call as the thread [t] that makes it sees it end: with a value
    ([push] returns Python's [None]) or with an exception. *)
Definition observe (t : nat) (c : call) : Py.M (local A) (result (option A)) :=
  match c with
  | Push ctx => Py.attempt (push t ctx ;;; Py.ret None)
  | Pop => Py.attempt (pop t)
  end.

(** Calls made on one stack object by several threads, in the order in
    which they happen; each is recorded with its thread and its outcome. *)
Fixpoint run_threads (sched : list (nat * call))
  : Py.M (local A) (list (nat * result (option A))) :=
  match sched with
  | [] => Py.ret []
  | (t, c) :: rest =>
      r <- observe t c ;;
      rs <- run_threads rest ;;
      Py.ret ((t, r) :: rs)
  end.

End Stack.
Arguments call A : clear implicits.
End pdtContextStack.

(** * Properties of pdtContext *)

Section ContextFacts.

Import pdtContext.

Example scenario_year_now :
  let c1 := Py.exec (updateAccuracy [PyStr "year"]) (__init__ 0) in
  let c2 := Py.exec (updateAccuracy [PyStr "now"]) c1 in
  (accuracy c1, hasDate c1, hasTime c1, dateTimeFlag c1) = (1, true, false, 1)
  /\ (accuracy c2, hasDate c2, hasTime c2, dateTimeFlag c2)
     = (257, true, true, 3).
Proof. split; vm_compute; reflexivity. Qed.

Lemma bool_true_iff (z : Z) : bool_ z = true <-> z <> 0.
Proof.
  unfold bool_. rewrite negb_true_iff, Z.eqb_neq. tauto.
Qed.

Lemma bool_false_iff (z : Z) : bool_ z = false <-> z = 0.
Proof.
  unfold bool_. rewrite negb_false_iff, Z.eqb_eq. tauto.
Qed.

Lemma land_lor_nonzero (a x y : Z) :
  Z.land a (Z.lor x y) <> 0 <-> Z.land a x <> 0 \/ Z.land a y <> 0.
Proof.
  rewrite Z.land_lor_distr_r, Z.lor_eq_0_iff.
  destruct (Z.eq_dec (Z.land a x) 0), (Z.eq_dec (Z.land a y) 0); tauto.
Qed.

Lemma hasDate_true_iff (c : pdtContext) :
  hasDate c = true <-> Z.land (accuracy c) ACU_DATE <> 0.
Proof. apply bool_true_iff. Qed.

Lemma hasTime_true_iff (c : pdtContext) :
  hasTime c = true <-> Z.land (accuracy c) ACU_TIME <> 0.
Proof. apply bool_true_iff. Qed.

(** A flag [2^k] is "set" in a mask when the test [mask & flag], the one
    [__repr__] uses, is true; this is bit [k] of the mask. *)
Lemma flag_set_testbit (a : Z) (k : Z) :
  0 <= k -> (Z.land a (2 ^ k) <> 0 <-> Z.testbit a k = true).
Proof.
  intros Hk. split.
  - intros Hne. destruct (Z.testbit a k) eqn:Hb; [reflexivity|].
    exfalso. apply Hne. apply Z.bits_inj'. intros n Hn.
    rewrite Z.land_spec, Z.bits_0.
    destruct (Z.eq_dec n k) as [-> | Hnk].
    + rewrite Hb. reflexivity.
    + rewrite Z.pow2_bits_false by lia. apply andb_false_r.
  - intros Hb Heq.
    assert (Hk' : Z.testbit (Z.land a (2 ^ k)) k = true).
    { rewrite Z.land_spec, Hb, Z.pow2_bits_true by lia. reflexivity. }
    rewrite Heq, Z.bits_0 in Hk'. discriminate.
Qed.

(** C3: [hasDate] holds iff one of the YEAR, MONTH, WEEK, DAY bits is set,
    [hasTime] iff one of the HALFDAY, HOUR, MIN, SEC, NOW bits is set,
    [hasDateOrTime] iff the mask is not zero, and some context has both
    [hasDate] and [hasTime]. *)
Theorem has_queries_spec :
  (forall c : pdtContext,
      (hasDate c = true <->
         Z.land (accuracy c) ACU_YEAR <> 0 \/ Z.land (accuracy c) ACU_MONTH <> 0
         \/ Z.land (accuracy c) ACU_WEEK <> 0 \/ Z.land (accuracy c) ACU_DAY <> 0)
      /\ (hasTime c = true <->
         Z.land (accuracy c) ACU_HALFDAY <> 0 \/ Z.land (accuracy c) ACU_HOUR <> 0
         \/ Z.land (accuracy c) ACU_MIN <> 0 \/ Z.land (accuracy c) ACU_SEC <> 0
         \/ Z.land (accuracy c) ACU_NOW <> 0)
      /\ (hasDateOrTime c = true <-> accuracy c <> 0))
  /\ (exists c : pdtContext, hasDate c = true /\ hasTime c = true).
Proof.
  split.
  - intros c. split; [|split].
    + rewrite hasDate_true_iff. unfold ACU_DATE.
      rewrite !land_lor_nonzero. tauto.
    + rewrite hasTime_true_iff. unfold ACU_TIME.
      rewrite !land_lor_nonzero. tauto.
    + apply bool_true_iff.
  - exists (__init__ (Z.lor ACU_DAY ACU_HOUR)). split; reflexivity.
Qed.

(** The two composite queries read on the bits of the mask. *)
Lemma has_queries_bits (c : pdtContext) :
  (hasDate c = true <-> exists k, 0 <= k <= 3 /\ Z.testbit (accuracy c) k = true)
  /\ (hasTime c = true <-> exists k, 4 <= k <= 8 /\ Z.testbit (accuracy c) k = true).
Proof.
  split.
  - rewrite hasDate_true_iff. unfold ACU_DATE.
    rewrite !land_lor_nonzero.
    change ACU_YEAR with (2 ^ 0). change ACU_MONTH with (2 ^ 1).
    change ACU_WEEK with (2 ^ 2). change ACU_DAY with (2 ^ 3).
    rewrite !flag_set_testbit by lia. split.
    + intros [[[H|H]|H]|H]; eexists; (split; [|exact H]); lia.
    + intros (k & Hk & H).
      assert (k = 0 \/ k = 1 \/ k = 2 \/ k = 3) as [-> | [-> | [-> | ->]]] by lia;
        tauto.
  - rewrite hasTime_true_iff. unfold ACU_TIME.
    rewrite !land_lor_nonzero.
    change ACU_HALFDAY with (2 ^ 4). change ACU_HOUR with (2 ^ 5).
    change ACU_MIN with (2 ^ 6). change ACU_SEC with (2 ^ 7).
    change ACU_NOW with (2 ^ 8).
    rewrite !flag_set_testbit by lia. split.
    + intros [[[[H|H]|H]|H]|H]; eexists; (split; [|exact H]); lia.
    + intros (k & Hk & H).
      assert (k = 4 \/ k = 5 \/ k = 6 \/ k = 7 \/ k = 8)
        as [-> | [-> | [-> | [-> | ->]]]] by lia; tauto.
Qed.

(** C8: [dateTimeFlag] is one of 0, 1, 2, 3 and equals
    [(1 if hasDate else 0) | (2 if hasTime else 0)]. *)
Theorem dateTimeFlag_spec (c : pdtContext) :
  dateTimeFlag c ∈ [0; 1; 2; 3]
  /\ dateTimeFlag c
     = Z.lor (if hasDate c then 1 else 0) (if hasTime c then 2 else 0).
Proof.
  unfold dateTimeFlag, py_and.
  destruct (hasDate c), (hasTime c); simpl; split; try reflexivity;
    set_solver.
Qed.

(** C10: an integer is OR'ed in unchecked; a mask that has bits but none of
    the nine named ones (512, say) makes [hasDateOrTime] true while
    [hasDate] and [hasTime] are false and [dateTimeFlag] is 0. *)
Theorem unnamed_bits_only (m : Z) :
  m <> 0 ->
  Z.land m (Z.lor ACU_DATE ACU_TIME) = 0 ->
  exists c : pdtContext,
    updateAccuracy [PyInt m] (__init__ 0) = (Return tt, c)
    /\ accuracy c = m
    /\ hasDateOrTime c = true
    /\ hasDate c = false
    /\ hasTime c = false
    /\ dateTimeFlag c = 0.
Proof.
  intros Hm Hout.
  rewrite Z.land_lor_distr_r, Z.lor_eq_0_iff in Hout. destruct Hout as [Hd Ht].
  exists (mk_pdtContext m).
  assert (HD : hasDate (mk_pdtContext m) = false) by (apply bool_false_iff, Hd).
  assert (HT : hasTime (mk_pdtContext m) = false) by (apply bool_false_iff, Ht).
  repeat split; try assumption.
  - apply bool_true_iff, Hm.
  - unfold dateTimeFlag. rewrite HD, HT. reflexivity.
Qed.

Lemma unnamed_bits_only_512 :
  512 <> 0 /\ Z.land 512 (Z.lor ACU_DATE ACU_TIME) = 0
  /\ exists c : pdtContext,
       updateAccuracy [PyInt 512] (__init__ 0) = (Return tt, c)
       /\ accuracy c = 512
       /\ hasDateOrTime c = true
       /\ hasDate c = false
       /\ hasTime c = false
       /\ dateTimeFlag c = 0.
Proof.
  split; [lia|]. split; [reflexivity|].
  apply (unnamed_bits_only 512); [lia | reflexivity].
Defined.

(** ** The loop of [updateAccuracy] *)

Lemma updateAccuracy_cons_resolved a z rest c :
  resolve a = Return z ->
  updateAccuracy (a :: rest) c
  = updateAccuracy rest (mk_pdtContext (Z.lor (accuracy c) z)).
Proof.
  intros Hz. simpl. unfold Py.bind at 1, Py.lift. rewrite Hz. reflexivity.
Qed.

Lemma updateAccuracy_cons_raise a e rest c :
  resolve a = Raise e ->
  updateAccuracy (a :: rest) c = (Raise e, c).
Proof.
  intros He. simpl. unfold Py.bind at 1, Py.lift. rewrite He. reflexivity.
Qed.

Lemma unknown_label_raise a :
  unknown_label a <-> exists s, a = PyStr s /\ resolve a = Raise (KeyError s).
Proof.
  unfold unknown_label. split; intros (s & -> & H); exists s; split; trivial.
  - simpl. unfold getitem. rewrite H. reflexivity.
  - simpl in H. unfold getitem in H.
    destruct (_ACCURACY_REVERSE_MAPPING !! s); [discriminate|reflexivity].
Qed.

Lemma resolves_or_unknown a : resolves a \/ unknown_label a.
Proof.
  destruct a as [n|s].
  - left. eexists. reflexivity.
  - destruct (_ACCURACY_REVERSE_MAPPING !! s) as [z|] eqn:Hs.
    + left. exists z. simpl. unfold getitem. rewrite Hs. reflexivity.
    + right. exists s. auto.
Qed.

Lemma mask_lor_0 c : mk_pdtContext (Z.lor (accuracy c) 0) = c.
Proof. destruct c as [a]. simpl. rewrite Z.lor_0_r. reflexivity. Qed.

Lemma union_cons z flags : union (z :: flags) = Z.lor z (union flags).
Proof. reflexivity. Qed.

Lemma union_app xs ys : union (xs ++ ys) = Z.lor (union xs) (union ys).
Proof.
  induction xs as [|x xs IH].
  - reflexivity.
  - rewrite <- app_comm_cons, !union_cons, IH, Z.lor_assoc. reflexivity.
Qed.

Lemma union_Permutation xs ys : xs ≡ₚ ys -> union xs = union ys.
Proof.
  induction 1 as [|x xs ys _ IH|x y xs|xs ys zs _ IH1 _ IH2].
  - reflexivity.
  - rewrite !union_cons, IH. reflexivity.
  - rewrite !union_cons, !Z.lor_assoc, (Z.lor_comm y x). reflexivity.
  - congruence.
Qed.

Lemma flags_of_cons_resolved a z rest :
  resolve a = Return z -> flags_of (a :: rest) = z :: flags_of rest.
Proof.
  intros Hz. unfold flags_of. simpl. unfold flag_of at 1. rewrite Hz.
  reflexivity.
Qed.

Lemma updateAccuracy_resolved accs :
  Forall resolves accs ->
  forall c,
    updateAccuracy accs c
    = (Return tt, mk_pdtContext (Z.lor (accuracy c) (union (flags_of accs)))).
Proof.
  induction 1 as [|a accs [z Hz] _ IH]; intros c.
  - simpl. unfold Py.ret. rewrite mask_lor_0. reflexivity.
  - rewrite (updateAccuracy_cons_resolved _ _ _ _ Hz), IH.
    rewrite (flags_of_cons_resolved _ _ _ Hz), union_cons. simpl.
    rewrite Z.lor_assoc. reflexivity.
Qed.

Lemma updateAccuracy_app pre post c :
  updateAccuracy (pre ++ post) c
  = (updateAccuracy pre ;;; updateAccuracy post) c.
Proof.
  revert c. induction pre as [|a pre IH]; intros c.
  - reflexivity.
  - simpl. unfold Py.bind, Py.lift.
    destruct (resolve a) as [z|e]; [|reflexivity].
    simpl. rewrite IH. reflexivity.
Qed.

Lemma updateAccuracy_calls_concat calls c :
  updateAccuracy_calls calls c = updateAccuracy (concat calls) c.
Proof.
  revert c. induction calls as [|accs calls IH]; intros c.
  - reflexivity.
  - simpl. rewrite updateAccuracy_app. unfold Py.bind.
    destruct (updateAccuracy accs c) as [[[]|e] c']; [apply IH|reflexivity].
Qed.

(** Whatever the outcome, the loop only ever adds bits. *)
Lemma updateAccuracy_bits_kept accs :
  forall c r c',
    updateAccuracy accs c = (r, c') ->
    forall n, Z.testbit (accuracy c) n = true ->
              Z.testbit (accuracy c') n = true.
Proof.
  induction accs as [|a accs IH]; intros c r c' Hrun n Hn.
  - inversion Hrun; subst. exact Hn.
  - destruct (resolve a) as [z|e] eqn:Ha.
    + rewrite (updateAccuracy_cons_resolved _ _ _ _ Ha) in Hrun.
      apply (IH _ _ _ Hrun). simpl. rewrite Z.lor_spec, Hn. reflexivity.
    + rewrite (updateAccuracy_cons_raise _ _ _ _ Ha) in Hrun.
      inversion Hrun; subst. exact Hn.
Qed.

Lemma first_unknown_label accs :
  Exists unknown_label accs ->
  exists pre s post,
    accs = pre ++ PyStr s :: post
    /\ Forall resolves pre
    /\ _ACCURACY_REVERSE_MAPPING !! s = None.
Proof.
  induction accs as [|a accs IH]; intros Hex.
  - inversion Hex.
  - destruct (resolves_or_unknown a) as [Hres|(s & -> & Hs)].
    + assert (Hrest : Exists unknown_label accs).
      { inversion Hex as [? ? Hun|]; subst; [|assumption].
        apply unknown_label_raise in Hun. destruct Hun as (s & _ & Hr).
        destruct Hres as [z Hz]. congruence. }
      destruct (IH Hrest) as (pre & s & post & -> & Hpre & Hs).
      exists (a :: pre), s, post. repeat split; auto.
    + exists [], s, accs. repeat split; auto.
Qed.

Lemma updateAccuracy_raises_at pre s post c :
  Forall resolves pre ->
  _ACCURACY_REVERSE_MAPPING !! s = None ->
  updateAccuracy (pre ++ PyStr s :: post) c
  = (Raise (KeyError s),
     mk_pdtContext (Z.lor (accuracy c) (union (flags_of pre)))).
Proof.
  intros Hpre Hs. rewrite updateAccuracy_app. unfold Py.bind.
  rewrite (updateAccuracy_resolved _ Hpre).
  apply updateAccuracy_cons_raise. simpl. unfold getitem. rewrite Hs.
  reflexivity.
Qed.

(** C1, as the code has it: a call with a label that the reverse mapping
    lacks raises [KeyError] (a [LookupError]) at the first such label; the
    elements before it have been OR'ed into the mask by then and none after
    it is, so the mask is unchanged when the unknown label comes first. *)
Theorem updateAccuracy_unknown_label (accs : list pyval) (c : pdtContext) :
  Exists unknown_label accs ->
  exists pre s post,
    accs = pre ++ PyStr s :: post
    /\ Forall resolves pre
    /\ _ACCURACY_REVERSE_MAPPING !! s = None
    /\ is_LookupError (KeyError s) = true
    /\ updateAccuracy accs c
       = (Raise (KeyError s),
          mk_pdtContext (Z.lor (accuracy c) (union (flags_of pre))))
    /\ (pre = [] -> updateAccuracy accs c = (Raise (KeyError s), c)).
Proof.
  intros Hex.
  destruct (first_unknown_label accs Hex) as (pre & s & post & -> & Hpre & Hs).
  exists pre, s, post. repeat split; auto.
  - apply updateAccuracy_raises_at; assumption.
  - intros ->. rewrite app_nil_l. apply updateAccuracy_cons_raise. simpl.
    unfold getitem. rewrite Hs. reflexivity.
Qed.

Lemma updateAccuracy_unknown_label_bogus_unit :
  Exists unknown_label [PyStr "bogus_unit"]
  /\ updateAccuracy [PyStr "bogus_unit"] (__init__ 0)
     = (Raise (KeyError "bogus_unit"), __init__ 0).
Proof.
  assert (H : Exists unknown_label [PyStr "bogus_unit"]).
  { apply Exists_cons_hd. exists "bogus_unit".
    split; [reflexivity | vm_compute; reflexivity]. }
  split; [exact H|].
  destruct (updateAccuracy_unknown_label [PyStr "bogus_unit"] (__init__ 0) H)
    as (pre & s & post & Heq & _ & _ & _ & _ & Hfirst).
  destruct pre as [|a pre].
  - injection Heq as <- _. apply Hfirst. reflexivity.
  - injection Heq as _ Hnil. destruct pre; discriminate Hnil.
Defined.

(** C1 as it is worded fails: [updateAccuracy(1, "bogus_unit")] on a fresh
    context raises [KeyError] after the mask has become 1. *)
Lemma updateAccuracy_partial_mutation :
  Exists unknown_label [PyInt ACU_YEAR; PyStr "bogus_unit"]
  /\ updateAccuracy [PyInt ACU_YEAR; PyStr "bogus_unit"] (__init__ 0)
     = (Raise (KeyError "bogus_unit"), mk_pdtContext 1)
  /\ accuracy
       (Py.exec (updateAccuracy [PyInt ACU_YEAR; PyStr "bogus_unit"])
          (__init__ 0))
     <> accuracy (__init__ 0).
Proof.
  split; [|split].
  - apply Exists_cons_tl, Exists_cons_hd. exists "bogus_unit".
    split; [reflexivity | vm_compute; reflexivity].
  - vm_compute. reflexivity.
  - vm_compute. discriminate.
Qed.

(** C5: a successful [updateAccuracy] or [update] keeps every bit that was
    set in the mask before it. *)
Theorem update_monotonic (c c' : pdtContext) :
  (forall accs,
      updateAccuracy accs c = (Return tt, c') ->
      forall n, Z.testbit (accuracy c) n = true ->
                Z.testbit (accuracy c') n = true)
  /\ (forall other,
      update other c = (Return tt, c') ->
      forall n, Z.testbit (accuracy c) n = true ->
                Z.testbit (accuracy c') n = true).
Proof.
  split.
  - intros accs. apply updateAccuracy_bits_kept.
  - intros other. unfold update. apply updateAccuracy_bits_kept.
Qed.

Lemma update_monotonic_year_now :
  (updateAccuracy [PyStr "now"] (mk_pdtContext 1)
   = (Return tt, mk_pdtContext 257)
   /\ Z.testbit (accuracy (mk_pdtContext 1)) 0 = true
   /\ Z.testbit (accuracy (mk_pdtContext 257)) 0 = true)
  /\ (update (mk_pdtContext 12) (mk_pdtContext 6)
      = (Return tt, mk_pdtContext 14)
      /\ Z.testbit (accuracy (mk_pdtContext 6)) 1 = true
      /\ Z.testbit (accuracy (mk_pdtContext 14)) 1 = true).
Proof.
  assert (H1 : updateAccuracy [PyStr "now"] (mk_pdtContext 1)
               = (Return tt, mk_pdtContext 257)) by reflexivity.
  assert (H2 : update (mk_pdtContext 12) (mk_pdtContext 6)
               = (Return tt, mk_pdtContext 14)) by reflexivity.
  assert (B1 : Z.testbit (accuracy (mk_pdtContext 1)) 0 = true)
    by reflexivity.
  assert (B2 : Z.testbit (accuracy (mk_pdtContext 6)) 1 = true)
    by reflexivity.
  split.
  - split; [exact H1|]. split; [exact B1|].
    exact (proj1 (update_monotonic (mk_pdtContext 1) (mk_pdtContext 257))
             [PyStr "now"] H1 0 B1).
  - split; [exact H2|]. split; [exact B2|].
    exact (proj2 (update_monotonic (mk_pdtContext 6) (mk_pdtContext 14))
             (mk_pdtContext 12) H2 1 B2).
Defined.

Lemma concat_Permutation_calls (calls calls' : list (list pyval)) :
  calls ≡ₚ calls' -> concat calls ≡ₚ concat calls'.
Proof.
  induction 1 as [|x xs ys _ IH|x y xs|xs ys zs _ IH1 _ IH2]; simpl.
  - reflexivity.
  - rewrite IH. reflexivity.
  - rewrite !app_assoc. apply Permutation_app_tail, Permutation_app_comm.
  - etransitivity; eassumption.
Qed.

Lemma Forall_resolves_concat (calls : list (list pyval)) :
  Forall (Forall resolves) calls -> Forall resolves (concat calls).
Proof.
  induction 1 as [|accs calls Haccs _ IH]; simpl.
  - constructor.
  - apply Forall_app. split; assumption.
Qed.

Lemma updateAccuracy_calls_resolved calls c :
  Forall resolves (concat calls) ->
  updateAccuracy_calls calls c
  = (Return tt,
     mk_pdtContext (Z.lor (accuracy c) (union (flags_of (concat calls))))).
Proof.
  intros Hres. rewrite updateAccuracy_calls_concat.
  apply updateAccuracy_resolved, Hres.
Qed.

(** C2: when every element of every call resolves, the calls succeed and
    leave the initial mask OR'ed with the union of the resolved flags; any
    reordering of the calls, or of all their elements, ends in the same
    mask; and updating with one element twice is updating with it once. *)
Theorem updateAccuracy_calls_union (c : pdtContext) (calls : list (list pyval)) :
  Forall (Forall resolves) calls ->
  updateAccuracy_calls calls c
  = (Return tt,
     mk_pdtContext (Z.lor (accuracy c) (union (flags_of (concat calls)))))
  /\ (forall calls',
        calls' ≡ₚ calls \/ concat calls' ≡ₚ concat calls ->
        updateAccuracy_calls calls' c = updateAccuracy_calls calls c)
  /\ (forall a c0,
        resolves a ->
        updateAccuracy_calls [[a]; [a]] c0 = updateAccuracy_calls [[a]] c0
        /\ updateAccuracy [a; a] c0 = updateAccuracy [a] c0).
Proof.
  intros Hcalls. pose proof (Forall_resolves_concat _ Hcalls) as Hres.
  split; [|split].
  - apply updateAccuracy_calls_resolved, Hres.
  - intros calls' Hperm.
    assert (Hp : concat calls' ≡ₚ concat calls).
    { destruct Hperm as [Hp|Hp]; [apply concat_Permutation_calls|]; exact Hp. }
    assert (Hres' : Forall resolves (concat calls')) by (rewrite Hp; exact Hres).
    rewrite !updateAccuracy_calls_resolved by assumption.
    unfold flags_of.
    rewrite (union_Permutation _ _ (omap_Permutation flag_of _ _ Hp)).
    reflexivity.
  - intros a c0 [z Hz].
    assert (Hone : updateAccuracy [a] c0
                   = (Return tt, mk_pdtContext (Z.lor (accuracy c0) z))).
    { rewrite (updateAccuracy_cons_resolved _ _ _ _ Hz). reflexivity. }
    assert (Htwo : updateAccuracy [a; a] c0
                   = (Return tt, mk_pdtContext (Z.lor (accuracy c0) z))).
    { rewrite !(updateAccuracy_cons_resolved _ _ _ _ Hz). simpl.
      rewrite <- Z.lor_assoc, Z.lor_diag. reflexivity. }
    split; [|congruence].
    rewrite !updateAccuracy_calls_concat.
    change (concat [[a]; [a]]) with [a; a]. change (concat [[a]]) with [a].
    congruence.
Qed.

Lemma updateAccuracy_calls_union_example :
  Forall (Forall resolves) [[PyStr "year"; PyInt 8]; [PyStr "tonight"]]
  /\ updateAccuracy_calls [[PyStr "year"; PyInt 8]; [PyStr "tonight"]]
       (__init__ 2)
     = (Return tt, mk_pdtContext 27)
  /\ updateAccuracy_calls [[PyStr "tonight"]; [PyStr "year"; PyInt 8]]
       (__init__ 2)
     = updateAccuracy_calls [[PyStr "year"; PyInt 8]; [PyStr "tonight"]]
         (__init__ 2)
  /\ updateAccuracy [PyStr "tonight"; PyStr "tonight"] (__init__ 2)
     = updateAccuracy [PyStr "tonight"] (__init__ 2).
Proof.
  assert (H : Forall (Forall resolves)
                [[PyStr "year"; PyInt 8]; [PyStr "tonight"]]).
  { repeat constructor; eexists; vm_compute; reflexivity. }
  destruct (updateAccuracy_calls_union (__init__ 2) _ H) as (H1 & H2 & H3).
  split; [exact H|]. split; [exact H1|]. split.
  - apply H2. left. apply Permutation_swap.
  - apply (H3 (PyStr "tonight") (__init__ 2)).
    eexists. vm_compute. reflexivity.
Defined.

Lemma update_run (other c : pdtContext) :
  update other c
  = (Return tt, mk_pdtContext (Z.lor (accuracy c) (accuracy other))).
Proof. reflexivity. Qed.

(** C4: [A.update(B)] leaves in [A] the mask that
    [A.updateAccuracy(B.accuracy)] leaves, the OR of the two masks; on masks
    merging is commutative and associative, and the order in which two
    contexts are merged into a third does not matter. *)
Theorem update_merge (A B C : pdtContext) :
  update B A = updateAccuracy [PyInt (accuracy B)] A
  /\ update B A = (Return tt, mk_pdtContext (Z.lor (accuracy A) (accuracy B)))
  /\ accuracy (Py.exec (update B) A) = accuracy (Py.exec (update A) B)
  /\ Py.exec (update C) (Py.exec (update B) A)
     = Py.exec (update (Py.exec (update C) B)) A
  /\ Py.exec (update C) (Py.exec (update B) A)
     = Py.exec (update B) (Py.exec (update C) A).
Proof.
  rewrite !update_run. unfold Py.exec. rewrite !update_run. simpl.
  repeat split.
  - apply Z.lor_comm.
  - rewrite Z.lor_assoc. reflexivity.
  - rewrite <- !Z.lor_assoc, (Z.lor_comm (accuracy B)). reflexivity.
Qed.

End ContextFacts.

(** * Properties of pdtContextStack *)

Section StackFacts.

Context {A : Type}.
Implicit Types (l : pdtContextStack.local A) (s : list A) (t : nat) (x : A).

Lemma getattr_stack_Some l t s :
  l !! t = Some s -> pdtContextStack.getattr_stack t l = (Return s, l).
Proof. intros H. unfold pdtContextStack.getattr_stack. rewrite H. reflexivity. Qed.

Lemma getattr_stack_None l t :
  l !! t = None ->
  pdtContextStack.getattr_stack t l = (Raise (AttributeError "stack"), l).
Proof. intros H. unfold pdtContextStack.getattr_stack. rewrite H. reflexivity. Qed.

Lemma init_lookup t : pdtContextStack.__init__ (A:=A) t !! t = Some [].
Proof. apply lookup_insert_eq. Qed.

Lemma init_lookup_other t t' :
  t <> t' -> pdtContextStack.__init__ (A:=A) t !! t' = None.
Proof.
  intros Hne. unfold pdtContextStack.__init__.
  rewrite lookup_insert_ne by exact Hne. apply lookup_empty.
Qed.

Lemma empty_or_snoc s : s = [] \/ exists s0 x, s = s0 ++ [x].
Proof.
  destruct (last s) as [x|] eqn:E.
  - right. apply last_Some in E. destruct E as [s0 ->]. eauto.
  - left. apply last_None, E.
Qed.

Lemma push_run l t s x :
  l !! t = Some s ->
  pdtContextStack.push t x l = (Return tt, <[t := s ++ [x]]> l).
Proof.
  intros H. unfold pdtContextStack.push, Py.bind.
  rewrite (getattr_stack_Some _ _ _ H). reflexivity.
Qed.

Lemma pop_empty l t :
  l !! t = Some [] -> pdtContextStack.pop t l = (Return None, l).
Proof.
  intros H. unfold pdtContextStack.pop, Py.try_except, Py.bind.
  rewrite (getattr_stack_Some _ _ _ H). reflexivity.
Qed.

Lemma pop_snoc l t s x :
  l !! t = Some (s ++ [x]) ->
  pdtContextStack.pop t l = (Return (Some x), <[t := s]> l).
Proof.
  intros H. unfold pdtContextStack.pop, Py.try_except, Py.bind.
  rewrite (getattr_stack_Some _ _ _ H).
  unfold Py.lift, pdtContextStack.list_pop.
  rewrite last_snoc, removelast_last. reflexivity.
Qed.

Lemma last_empty l t :
  l !! t = Some [] ->
  pdtContextStack.last t l = (Raise (RuntimeError "context stack is empty"), l).
Proof.
  intros H. unfold pdtContextStack.last, Py.try_except, Py.bind.
  rewrite (getattr_stack_Some _ _ _ H). reflexivity.
Qed.

Lemma last_snoc_run l t s x :
  l !! t = Some (s ++ [x]) -> pdtContextStack.last t l = (Return x, l).
Proof.
  intros H. unfold pdtContextStack.last, Py.try_except, Py.bind.
  rewrite (getattr_stack_Some _ _ _ H).
  unfold Py.lift, pdtContextStack.list_getitem_last.
  rewrite last_snoc. reflexivity.
Qed.

Lemma isEmpty_run l t s :
  l !! t = Some s ->
  pdtContextStack.isEmpty t l
  = (Return (match s with [] => true | _ :: _ => false end), l).
Proof.
  intros H. unfold pdtContextStack.isEmpty, Py.bind.
  rewrite (getattr_stack_Some _ _ _ H). reflexivity.
Qed.

(** C6: when the calling thread's sequence is empty, [pop] returns [None]
    without raising and [last] raises the empty-stack [RuntimeError]; when
    its top is [x], [pop] removes and returns [x], and [last] returns [x]
    and leaves the stack as it is. *)
Theorem pop_last_spec l t s x :
  (l !! t = Some [] ->
     pdtContextStack.pop t l = (Return None, l)
     /\ pdtContextStack.last t l
        = (Raise (RuntimeError "context stack is empty"), l))
  /\ (l !! t = Some (s ++ [x]) ->
     pdtContextStack.pop t l = (Return (Some x), <[t := s]> l)
     /\ pdtContextStack.last t l = (Return x, l)).
Proof.
  split; intros H.
  - split; [apply pop_empty | apply last_empty]; exact H.
  - split; [exact (pop_snoc _ _ _ _ H) | exact (last_snoc_run _ _ _ _ H)].
Qed.

(** ** Sequences of calls by one thread *)

Lemma run_push_cons t x calls l s :
  l !! t = Some s ->
  pdtContextStack.run t (pdtContextStack.Push x :: calls) l
  = pdtContextStack.run t calls (<[t := s ++ [x]]> l).
Proof.
  intros H. simpl. unfold Py.bind at 1. rewrite (push_run _ _ _ _ H).
  reflexivity.
Qed.

Lemma run_pop_cons_empty t calls l :
  l !! t = Some [] ->
  pdtContextStack.run t (pdtContextStack.Pop :: calls) l
  = (rs <- pdtContextStack.run t calls ;; Py.ret (None :: rs)) l.
Proof.
  intros H. simpl. unfold Py.bind at 1. rewrite (pop_empty _ _ H).
  reflexivity.
Qed.

Lemma run_pop_cons_snoc t calls l s x :
  l !! t = Some (s ++ [x]) ->
  pdtContextStack.run t (pdtContextStack.Pop :: calls) l
  = (rs <- pdtContextStack.run t calls ;; Py.ret (Some x :: rs)) (<[t := s]> l).
Proof.
  intros H. simpl. unfold Py.bind at 1. rewrite (pop_snoc _ _ _ _ H).
  reflexivity.
Qed.

(** A thread that has its sequence never fails in [run]; the depth it ends
    at is at least pushes minus pops, and exactly that when no [pop] came
    back empty-handed. *)
Lemma run_depth t calls :
  forall l s,
    l !! t = Some s ->
    exists rs s',
      pdtContextStack.run t calls l = (Return rs, <[t := s']> l)
      /\ (length s + pdtContextStack.pushes calls
          <= length s' + pdtContextStack.pops calls)%nat
      /\ (Forall is_Some rs ->
          length s + pdtContextStack.pushes calls
          = length s' + pdtContextStack.pops calls)%nat.
Proof.
  induction calls as [|[x|] calls IH]; intros l s Hs.
  - exists [], s. simpl. unfold Py.ret. rewrite (insert_id _ _ _ Hs).
    split; [reflexivity|]. split; [lia|]. intros _. lia.
  - rewrite (run_push_cons _ _ _ _ _ Hs).
    destruct (IH (<[t := s ++ [x]]> l) (s ++ [x])) as (rs & s' & Hrun & Hle & Heq).
    { apply lookup_insert_eq. }
    exists rs, s'. rewrite Hrun, insert_insert_eq.
    rewrite length_app in Hle, Heq. simpl in *.
    split; [reflexivity|]. split; [lia|]. intros Hall. specialize (Heq Hall). lia.
  - destruct (empty_or_snoc s) as [-> | (s0 & x & ->)].
    + rewrite (run_pop_cons_empty _ _ _ Hs).
      destruct (IH l [] Hs) as (rs & s' & Hrun & Hle & _).
      exists (None :: rs), s'. unfold Py.bind. rewrite Hrun. simpl in *.
      split; [reflexivity|]. split; [lia|].
      intros Hall. inversion Hall as [|? ? [? Habs] _]. discriminate.
    + rewrite (run_pop_cons_snoc _ _ _ _ _ Hs).
      destruct (IH (<[t := s0]> l) s0) as (rs & s' & Hrun & Hle & Heq).
      { apply lookup_insert_eq. }
      exists (Some x :: rs), s'. unfold Py.bind. rewrite Hrun, insert_insert_eq.
      rewrite length_app. simpl in *.
      split; [reflexivity|]. split; [lia|].
      intros Hall. inversion Hall; subst. specialize (Heq ltac:(assumption)). lia.
Qed.

Lemma run_pushes t xs :
  forall l s,
    l !! t = Some s ->
    pdtContextStack.run t (pdtContextStack.Push <$> xs) l
    = (Return [], <[t := s ++ xs]> l).
Proof.
  induction xs as [|x xs IH]; intros l s Hs.
  - simpl. unfold Py.ret. rewrite app_nil_r, (insert_id _ _ _ Hs). reflexivity.
  - rewrite fmap_cons, (run_push_cons _ _ _ _ _ Hs).
    rewrite (IH _ (s ++ [x])) by apply lookup_insert_eq.
    rewrite insert_insert_eq, <- app_assoc. reflexivity.
Qed.

(** Pops come back in the reverse of the order of the pushes. *)
Lemma run_pops t k :
  forall l s,
    l !! t = Some s ->
    (k <= length s)%nat ->
    pdtContextStack.run t (replicate k pdtContextStack.Pop) l
    = (Return (Some <$> take k (reverse s)),
       <[t := take (length s - k) s]> l).
Proof.
  induction k as [|k IH]; intros l s Hs Hk.
  - simpl. unfold Py.ret. rewrite Nat.sub_0_r, firstn_all, (insert_id _ _ _ Hs).
    reflexivity.
  - destruct (empty_or_snoc s) as [-> | (s0 & x & ->)]; [simpl in Hk; lia|].
    rewrite length_app in Hk. simpl in Hk.
    change (replicate (S k) pdtContextStack.Pop)
      with (pdtContextStack.Pop :: replicate k (@pdtContextStack.Pop A)).
    rewrite (run_pop_cons_snoc _ _ _ _ _ Hs). unfold Py.bind.
    rewrite (IH _ s0) by (try apply lookup_insert_eq; lia).
    rewrite insert_insert_eq, reverse_snoc, length_app. simpl.
    replace (length s0 + 1 - S k)%nat with (length s0 - k)%nat by lia.
    rewrite take_app_le by lia. reflexivity.
Qed.

Lemma run_app t calls1 calls2 :
  forall l,
    pdtContextStack.run t (calls1 ++ calls2) l
    = (rs1 <- pdtContextStack.run t calls1 ;;
       rs2 <- pdtContextStack.run t calls2 ;;
       Py.ret (rs1 ++ rs2)) l.
Proof.
  induction calls1 as [|[x|] calls1 IH]; intros l.
  - simpl. unfold Py.bind, Py.ret.
    destruct (pdtContextStack.run t calls2 l) as [[rs|e] l']; reflexivity.
  - simpl. unfold Py.bind in *.
    destruct (pdtContextStack.push t x l) as [[[]|e] l']; [apply IH|reflexivity].
  - simpl. unfold Py.bind, Py.ret in *.
    destruct (pdtContextStack.pop t l) as [[r|e] l']; [|reflexivity].
    rewrite IH.
    destruct (pdtContextStack.run t calls1 l') as [[rs1|e] l'']; [|reflexivity].
    destruct (pdtContextStack.run t calls2 l'') as [[rs2|e] l3]; reflexivity.
Qed.

Lemma scenario_run t (ctx1 ctx2 : A) :
  Py.eval (pdtContextStack.scenario t ctx1 ctx2) (pdtContextStack.__init__ t)
  = Return (Raise (RuntimeError "context stack is empty"),
            ctx2, Some ctx2, Some ctx1, None, true).
Proof.
  unfold pdtContextStack.scenario, Py.eval, Py.bind, Py.attempt.
  rewrite (last_empty _ _ (init_lookup t)).
  rewrite (push_run _ _ [] ctx1 (init_lookup t)).
  rewrite (push_run _ _ ([] ++ [ctx1]) ctx2) by apply lookup_insert_eq.
  rewrite insert_insert_eq.
  rewrite (last_snoc_run _ _ ([] ++ [ctx1]) ctx2) by apply lookup_insert_eq.
  rewrite (pop_snoc _ _ ([] ++ [ctx1]) ctx2) by apply lookup_insert_eq.
  rewrite insert_insert_eq.
  rewrite (pop_snoc _ _ [] ctx1) by apply lookup_insert_eq.
  rewrite insert_insert_eq.
  rewrite (pop_empty _ _) by apply lookup_insert_eq.
  rewrite (isEmpty_run _ _ []) by apply lookup_insert_eq.
  reflexivity.
Qed.

(** A [pop] on the empty stack removes nothing, so it does not pair with a
    later push: after [pop(); push(5)] the stack holds 5. *)
Example pop_before_push :
  Py.eval (rs <- pdtContextStack.run 0
                   [pdtContextStack.Pop; pdtContextStack.Push 5] ;;
           e <- pdtContextStack.isEmpty 0 ;;
           Py.ret (rs, e)) (pdtContextStack.__init__ 0)
  = Return ([None], false).
Proof. reflexivity. Qed.

(** C7: in one thread, from the fresh stack: the scenario runs as written;
    a push directly followed by a pop gives back the pushed object, whatever
    calls came before; after any calls with fewer pops than pushes the stack
    is not empty, and with as many pops as pushes, each pop having returned a
    frame, it is empty; and [k <= N] pops after [N] pushes return the last [k]
    pushed objects, newest first, leaving the stack empty exactly when
    [k = N]. *)
Theorem stack_lifo t (ctx1 ctx2 x : A)
    (calls : list (pdtContextStack.call A)) (xs : list A) (k : nat) :
  Py.eval (pdtContextStack.scenario t ctx1 ctx2) (pdtContextStack.__init__ t)
  = Return (Raise (RuntimeError "context stack is empty"),
            ctx2, Some ctx2, Some ctx1, None, true)
  /\ Py.eval (pdtContextStack.run t calls ;;;
              pdtContextStack.push t x ;;;
              pdtContextStack.pop t) (pdtContextStack.__init__ t)
     = Return (Some x)
  /\ (exists rs e,
        Py.eval (rs <- pdtContextStack.run t calls ;;
                 e <- pdtContextStack.isEmpty t ;;
                 Py.ret (rs, e)) (pdtContextStack.__init__ t)
        = Return (rs, e)
        /\ ((pdtContextStack.pops calls < pdtContextStack.pushes calls)%nat ->
            e = false)
        /\ (pdtContextStack.pushes calls = pdtContextStack.pops calls ->
            Forall is_Some rs ->
            e = true))
  /\ ((k <= length xs)%nat ->
      Py.eval (rs <- pdtContextStack.run t
                       ((pdtContextStack.Push <$> xs)
                          ++ replicate k pdtContextStack.Pop) ;;
               e <- pdtContextStack.isEmpty t ;;
               Py.ret (rs, e)) (pdtContextStack.__init__ t)
      = Return (Some <$> take k (reverse xs), Nat.eqb k (length xs))).
Proof.
  split; [apply scenario_run|].
  destruct (run_depth t calls _ [] (init_lookup t))
    as (rs & s' & Hrun & Hle & Heq).
  split; [|split].
  - unfold Py.eval, Py.bind. rewrite Hrun.
    rewrite (push_run _ _ s' x) by apply lookup_insert_eq.
    rewrite (pop_snoc _ _ s' x) by apply lookup_insert_eq.
    reflexivity.
  - exists rs, (match s' with [] => true | _ :: _ => false end).
    split; [|split].
    + unfold Py.eval, Py.bind. rewrite Hrun.
      rewrite (isEmpty_run _ _ s') by apply lookup_insert_eq. reflexivity.
    + intros Hlt. destruct s'; [simpl in Hle; lia|reflexivity].
    + intros Hsame Hall. specialize (Heq Hall).
      destruct s'; [reflexivity|simpl in Heq; lia].
  - intros Hk. unfold Py.eval. unfold Py.bind at 1. rewrite run_app.
    unfold Py.bind at 1 2.
    rewrite (run_pushes _ xs _ [] (init_lookup t)).
    rewrite (run_pops _ k _ ([] ++ xs)) by (try apply lookup_insert_eq; simpl; lia).
    unfold Py.bind, Py.ret.
    rewrite (isEmpty_run _ _ (take (length ([] ++ xs) - k) ([] ++ xs)))
      by apply lookup_insert_eq.
    simpl. do 3 f_equal.
    destruct (Nat.eqb_spec k (length xs)) as [-> | Hne].
    + rewrite Nat.sub_diag. reflexivity.
    + destruct xs as [|y ys]; [simpl in *; lia|].
      destruct (length (y :: ys) - k)%nat eqn:E; [lia|reflexivity].
Qed.

(** ** Threads *)

Lemma thread_without_stack l t x :
  l !! t = None ->
  pdtContextStack.push t x l = (Raise (AttributeError "stack"), l)
  /\ pdtContextStack.pop t l = (Raise (AttributeError "stack"), l)
  /\ pdtContextStack.last t l = (Raise (AttributeError "stack"), l)
  /\ pdtContextStack.isEmpty t l = (Raise (AttributeError "stack"), l).
Proof.
  intros H.
  unfold pdtContextStack.push, pdtContextStack.pop, pdtContextStack.last,
    pdtContextStack.isEmpty, Py.try_except, Py.bind.
  rewrite (getattr_stack_None _ _ H). repeat split; reflexivity.
Qed.

(** No call made by thread [t] touches the sequence of another thread. *)
Lemma thread_isolation l t t' x :
  t <> t' ->
  Py.exec (pdtContextStack.push t x) l !! t' = l !! t'
  /\ Py.exec (pdtContextStack.pop t) l !! t' = l !! t'
  /\ Py.exec (pdtContextStack.last t) l !! t' = l !! t'
  /\ Py.exec (pdtContextStack.isEmpty t) l !! t' = l !! t'.
Proof.
  intros Hne. unfold Py.exec. destruct (l !! t) as [s|] eqn:Hs.
  - rewrite (isEmpty_run _ _ _ Hs), (push_run _ _ _ x Hs).
    destruct (empty_or_snoc s) as [-> | (s0 & y & ->)].
    + rewrite (pop_empty _ _ Hs), (last_empty _ _ Hs). simpl.
      rewrite lookup_insert_ne by exact Hne. auto.
    + rewrite (pop_snoc _ _ _ _ Hs), (last_snoc_run _ _ _ _ Hs).
      simpl. rewrite !lookup_insert_ne by exact Hne. auto.
  - destruct (thread_without_stack l t x Hs) as (-> & -> & -> & ->).
    simpl. auto.
Qed.

End StackFacts.

Lemma pop_last_spec_example :
  let l0 : pdtContextStack.local Z := <[0%nat := []]> ∅ in
  let l2 : pdtContextStack.local Z := <[0%nat := [7; 9]]> ∅ in
  (pdtContextStack.pop 0 l0 = (Return None, l0)
   /\ pdtContextStack.last 0 l0
      = (Raise (RuntimeError "context stack is empty"), l0))
  /\ (pdtContextStack.pop 0 l2 = (Return (Some 9), <[0%nat := [7]]> l2)
      /\ pdtContextStack.last 0 l2 = (Return 9, l2)).
Proof.
  split.
  - apply (proj1 (pop_last_spec (<[0%nat := []]> ∅) 0%nat [] 0)).
    reflexivity.
  - apply (proj2 (pop_last_spec (<[0%nat := [7; 9]]> ∅) 0%nat [7] 9)).
    reflexivity.
Defined.

Lemma stack_lifo_example :
  (exists rs e,
      Py.eval (rs <- pdtContextStack.run 0
                       [pdtContextStack.Push 5; pdtContextStack.Pop;
                        pdtContextStack.Push 6] ;;
               e <- pdtContextStack.isEmpty 0 ;;
               Py.ret (rs, e)) (pdtContextStack.__init__ 0)
      = Return (rs, e)
      /\ e = false)
  /\ (exists rs e,
      Py.eval (rs <- pdtContextStack.run 0
                       [pdtContextStack.Push 5; pdtContextStack.Push 6;
                        pdtContextStack.Pop; pdtContextStack.Pop] ;;
               e <- pdtContextStack.isEmpty 0 ;;
               Py.ret (rs, e)) (pdtContextStack.__init__ 0)
      = Return (rs, e)
      /\ e = true)
  /\ Py.eval (rs <- pdtContextStack.run 0
                       ((pdtContextStack.Push <$> [5; 6; 7])
                          ++ replicate 2 pdtContextStack.Pop) ;;
               e <- pdtContextStack.isEmpty 0 ;;
               Py.ret (rs, e)) (pdtContextStack.__init__ 0)
     = Return ([Some 7; Some 6], false).
Proof.
  split; [|split].
  - destruct (proj1 (proj2 (proj2
      (stack_lifo 0%nat 1 2 3
         [pdtContextStack.Push 5; pdtContextStack.Pop; pdtContextStack.Push 6]
         [] 0%nat)))) as (rs & e & Hev & Hlt & _).
    exists rs, e. split; [exact Hev|]. apply Hlt. simpl. lia.
  - destruct (proj1 (proj2 (proj2
      (stack_lifo 0%nat 1 2 3
         [pdtContextStack.Push 5; pdtContextStack.Push 6;
          pdtContextStack.Pop; pdtContextStack.Pop]
         [] 0%nat)))) as (rs & e & Hev & _ & Heq).
    exists rs, e. split; [exact Hev|]. apply Heq; [reflexivity|].
    vm_compute in Hev. injection Hev as <- _.
    repeat constructor; eexists; reflexivity.
  - apply (proj2 (proj2 (proj2
      (stack_lifo 0%nat 1 2 3 [] [5; 6; 7] 2%nat)))).
    simpl. lia.
Defined.

(** C9, on the code: the constructor gives the attribute [stack] to the
    constructing thread only, so in any other thread every method raises
    [AttributeError]; here thread 0 constructs and thread 1 calls. *)
Theorem other_thread_AttributeError :
  let l : pdtContextStack.local pdtContext := pdtContextStack.__init__ 0 in
  pdtContextStack.push 1 (pdtContext.__init__ 0) l
  = (Raise (AttributeError "stack"), l)
  /\ pdtContextStack.pop 1 l = (Raise (AttributeError "stack"), l)
  /\ pdtContextStack.last 1 l = (Raise (AttributeError "stack"), l)
  /\ pdtContextStack.isEmpty 1 l = (Raise (AttributeError "stack"), l).
Proof.
  apply thread_without_stack. apply init_lookup_other. discriminate.
Qed.

(** * Further properties of pdtContext *)

Section ContextMore.

Import pdtContext.

(** ** The two tables *)

Lemma mapping_flags :
  fst <$> _ACCURACY_MAPPING = [1; 2; 4; 8; 16; 32; 64; 128; 256].
Proof. reflexivity. Qed.

Lemma reverse_mapping_flag (s : string) (z : Z) :
  _ACCURACY_REVERSE_MAPPING !! s = Some z ->
  z ∈ [1; 2; 4; 8; 16; 32; 64; 128; 256].
Proof.
  intros H. apply elem_of_list_to_map_2 in H.
  repeat (apply elem_of_cons in H; destruct H as [H|H];
          [injection H as _ ->; vm_compute; set_solver|]).
  inversion H.
Qed.

Lemma mapping_in_reverse (acc : Z) (name : string) :
  (acc, name) ∈ _ACCURACY_MAPPING ->
  _ACCURACY_REVERSE_MAPPING !! name = Some acc.
Proof.
  intros H. unfold _ACCURACY_MAPPING in H.
  repeat (apply elem_of_cons in H; destruct H as [H|H];
          [injection H as -> ->; vm_compute; reflexivity|]).
  inversion H.
Qed.

Lemma flag_in_ACU_ALL (z : Z) :
  z ∈ [1; 2; 4; 8; 16; 32; 64; 128; 256] -> Z.land z ACU_ALL = z.
Proof.
  intros H.
  repeat (apply elem_of_cons in H; destruct H as [->|H]; [reflexivity|]).
  inversion H.
Qed.

(** X12: the two tables agree: each of the nine names of [_ACCURACY_MAPPING]
    is a label of the reverse mapping for its own flag, and every label of
    the reverse mapping stands for a flag that [_ACCURACY_MAPPING] names. *)
Theorem tables_agree :
  (forall acc name,
      (acc, name) ∈ _ACCURACY_MAPPING ->
      _ACCURACY_REVERSE_MAPPING !! name = Some acc)
  /\ (forall s z,
        _ACCURACY_REVERSE_MAPPING !! s = Some z ->
        exists name, (z, name) ∈ _ACCURACY_MAPPING).
Proof.
  split.
  - apply mapping_in_reverse.
  - intros s z Hs. pose proof (reverse_mapping_flag s z Hs) as Hz.
    rewrite <- mapping_flags in Hz. apply list_elem_of_fmap in Hz.
    destruct Hz as ([acc name] & -> & Hin). exists name. exact Hin.
Qed.

Lemma tables_agree_example :
  (ACU_HOUR, "hour") ∈ _ACCURACY_MAPPING
  /\ _ACCURACY_REVERSE_MAPPING !! "hour" = Some ACU_HOUR
  /\ _ACCURACY_REVERSE_MAPPING !! "tonight" = Some ACU_HALFDAY
  /\ exists name, (ACU_HALFDAY, name) ∈ _ACCURACY_MAPPING.
Proof.
  assert (H1 : (ACU_HOUR, "hour") ∈ _ACCURACY_MAPPING).
  { unfold _ACCURACY_MAPPING. do 5 apply list_elem_of_further.
    apply list_elem_of_here. }
  assert (H2 : _ACCURACY_REVERSE_MAPPING !! "tonight" = Some ACU_HALFDAY)
    by (vm_compute; reflexivity).
  split; [exact H1|].
  split; [exact (proj1 tables_agree _ _ H1)|].
  split; [exact H2|].
  exact (proj2 tables_agree _ _ H2).
Defined.

(** ** Masks *)

Lemma lor_absorbs (a b : Z) : Z.lor a b = a <-> Z.land a b = b.
Proof.
  split; intros H; apply Z.bits_inj'; intros n _.
  - rewrite <- H at 1. rewrite Z.land_spec, Z.lor_spec.
    destruct (Z.testbit a n), (Z.testbit b n); reflexivity.
  - rewrite <- H. rewrite Z.lor_spec, Z.land_spec.
    destruct (Z.testbit a n), (Z.testbit b n); reflexivity.
Qed.

Lemma named_lor (a z : Z) :
  Z.land a ACU_ALL = a -> Z.land z ACU_ALL = z ->
  Z.land (Z.lor a z) ACU_ALL = Z.lor a z.
Proof. intros Ha Hz. rewrite Z.land_lor_distr_l, Ha, Hz. reflexivity. Qed.

(** ** What the loop of [updateAccuracy] adds *)

Lemma updateAccuracy_adds accs :
  forall c r c',
    updateAccuracy accs c = (r, c') ->
    exists m, accuracy c' = Z.lor (accuracy c) m.
Proof.
  induction accs as [|a accs IH]; intros c r c' Hrun.
  - inversion Hrun; subst. exists 0. rewrite Z.lor_0_r. reflexivity.
  - destruct (resolve a) as [z|e] eqn:Ha.
    + rewrite (updateAccuracy_cons_resolved _ _ _ _ Ha) in Hrun.
      destruct (IH _ _ _ Hrun) as [m Hm]. exists (Z.lor z m).
      rewrite Hm. simpl. rewrite Z.lor_assoc. reflexivity.
    + rewrite (updateAccuracy_cons_raise _ _ _ _ Ha) in Hrun.
      inversion Hrun; subst. exists 0. rewrite Z.lor_0_r. reflexivity.
Qed.

Lemma land_nonzero_lor (a m mask : Z) :
  Z.land a mask <> 0 -> Z.land (Z.lor a m) mask <> 0.
Proof.
  intros Ha. rewrite Z.land_lor_distr_l, Z.lor_eq_0_iff. tauto.
Qed.

(** X1: no call of [updateAccuracy], whether it returns or raises, turns one of
    the three boolean queries from true to false, and the legacy code only
    gains bits. *)
Theorem queries_never_reset (accs : list pyval) (c c' : pdtContext)
    (r : result unit) :
  updateAccuracy accs c = (r, c') ->
  (hasDate c = true -> hasDate c' = true)
  /\ (hasTime c = true -> hasTime c' = true)
  /\ (hasDateOrTime c = true -> hasDateOrTime c' = true)
  /\ Z.lor (dateTimeFlag c) (dateTimeFlag c') = dateTimeFlag c'.
Proof.
  intros Hrun. destruct (updateAccuracy_adds _ _ _ _ Hrun) as [m Hm].
  assert (HD : hasDate c = true -> hasDate c' = true).
  { rewrite !hasDate_true_iff, Hm. apply land_nonzero_lor. }
  assert (HT : hasTime c = true -> hasTime c' = true).
  { rewrite !hasTime_true_iff, Hm. apply land_nonzero_lor. }
  repeat split; try assumption.
  - unfold hasDateOrTime. rewrite !bool_true_iff, Hm, Z.lor_eq_0_iff. tauto.
  - unfold dateTimeFlag, py_and.
    destruct (hasDate c), (hasTime c), (hasDate c'), (hasTime c');
      try reflexivity;
      try (specialize (HD eq_refl); discriminate);
      try (specialize (HT eq_refl); discriminate).
Qed.

Lemma queries_never_reset_example :
  updateAccuracy [PyStr "hour"; PyStr "bogus_unit"] (mk_pdtContext 2)
  = (Raise (KeyError "bogus_unit"), mk_pdtContext 34)
  /\ hasDate (mk_pdtContext 2) = true
  /\ hasDate (mk_pdtContext 34) = true
  /\ Z.lor (dateTimeFlag (mk_pdtContext 2)) (dateTimeFlag (mk_pdtContext 34))
     = dateTimeFlag (mk_pdtContext 34).
Proof.
  assert (H : updateAccuracy [PyStr "hour"; PyStr "bogus_unit"]
                (mk_pdtContext 2)
              = (Raise (KeyError "bogus_unit"), mk_pdtContext 34))
    by (vm_compute; reflexivity).
  assert (HD : hasDate (mk_pdtContext 2) = true) by reflexivity.
  destruct (queries_never_reset _ _ _ _ H) as (H1 & _ & _ & H4).
  split; [exact H|]. split; [exact HD|]. split; [exact (H1 HD)|exact H4].
Defined.

(** X2: a call whose elements are labels, or integers made of named bits, keeps
    a mask made of named bits that way, also when it raises part-way. *)
Theorem updateAccuracy_keeps_named (accs : list pyval) (c c' : pdtContext)
    (r : result unit) :
  Z.land (accuracy c) ACU_ALL = accuracy c ->
  Forall named_arg accs ->
  updateAccuracy accs c = (r, c') ->
  Z.land (accuracy c') ACU_ALL = accuracy c'.
Proof.
  intros Hc Hargs. revert c Hc.
  induction Hargs as [|a accs Ha _ IH]; intros c Hc Hrun.
  - inversion Hrun; subst. exact Hc.
  - destruct (resolve a) as [z|e] eqn:Hres.
    + rewrite (updateAccuracy_cons_resolved _ _ _ _ Hres) in Hrun.
      refine (IH _ _ Hrun). simpl. apply named_lor; [exact Hc|].
      destruct a as [n|s]; simpl in Hres.
      * injection Hres as <-. exact Ha.
      * unfold getitem in Hres.
        destruct (_ACCURACY_REVERSE_MAPPING !! s) as [z'|] eqn:Hs;
          [|discriminate].
        injection Hres as <-.
        apply flag_in_ACU_ALL, (reverse_mapping_flag s), Hs.
    + rewrite (updateAccuracy_cons_raise _ _ _ _ Hres) in Hrun.
      inversion Hrun; subst. exact Hc.
Qed.

Lemma updateAccuracy_keeps_named_example :
  Z.land (accuracy (__init__ 3)) ACU_ALL = accuracy (__init__ 3)
  /\ Forall named_arg [PyStr "tonight"; PyInt 64; PyStr "fortnight"]
  /\ updateAccuracy [PyStr "tonight"; PyInt 64; PyStr "fortnight"] (__init__ 3)
     = (Raise (KeyError "fortnight"), mk_pdtContext 83)
  /\ Z.land (accuracy (mk_pdtContext 83)) ACU_ALL = accuracy (mk_pdtContext 83).
Proof.
  assert (H0 : Z.land (accuracy (__init__ 3)) ACU_ALL = accuracy (__init__ 3))
    by reflexivity.
  assert (H1 : Forall named_arg
                 [PyStr "tonight"; PyInt 64; PyStr "fortnight"]).
  { repeat constructor. }
  assert (H2 : updateAccuracy [PyStr "tonight"; PyInt 64; PyStr "fortnight"]
                 (__init__ 3)
               = (Raise (KeyError "fortnight"), mk_pdtContext 83))
    by (vm_compute; reflexivity).
  split; [exact H0|]. split; [exact H1|]. split; [exact H2|].
  exact (updateAccuracy_keeps_named _ _ _ _ H0 H1 H2).
Defined.

(** ** The queries against each other *)

Lemma date_or_time_named (c : pdtContext) :
  hasDate c || hasTime c = bool_ (Z.land (accuracy c) ACU_ALL).
Proof.
  unfold hasDate, hasTime, ACU_ALL, bool_.
  rewrite Z.land_lor_distr_r.
  destruct (Z.eqb_spec (Z.land (accuracy c) ACU_DATE) 0) as [-> | Hd]; simpl.
  - reflexivity.
  - symmetry. apply negb_true_iff, Z.eqb_neq. rewrite Z.lor_eq_0_iff. tauto.
Qed.

(** X3: [hasDate] or [hasTime] implies [hasDateOrTime]; the converse holds for
    a mask made of named bits, where [hasDateOrTime] is their disjunction. *)
Theorem hasDateOrTime_disjunction (c : pdtContext) :
  (hasDate c || hasTime c = true -> hasDateOrTime c = true)
  /\ (Z.land (accuracy c) ACU_ALL = accuracy c ->
      hasDateOrTime c = hasDate c || hasTime c).
Proof.
  rewrite date_or_time_named. unfold hasDateOrTime. split.
  - rewrite !bool_true_iff. intros H Hz. apply H. rewrite Hz. reflexivity.
  - intros ->. reflexivity.
Qed.

Lemma hasDateOrTime_disjunction_example :
  hasDate (mk_pdtContext 520) || hasTime (mk_pdtContext 520) = true
  /\ hasDateOrTime (mk_pdtContext 520) = true
  /\ Z.land (accuracy (mk_pdtContext 48)) ACU_ALL = accuracy (mk_pdtContext 48)
  /\ hasDateOrTime (mk_pdtContext 48)
     = hasDate (mk_pdtContext 48) || hasTime (mk_pdtContext 48).
Proof.
  assert (H1 : hasDate (mk_pdtContext 520) || hasTime (mk_pdtContext 520)
               = true) by reflexivity.
  assert (H2 : Z.land (accuracy (mk_pdtContext 48)) ACU_ALL
               = accuracy (mk_pdtContext 48)) by reflexivity.
  split; [exact H1|].
  split; [exact (proj1 (hasDateOrTime_disjunction (mk_pdtContext 520)) H1)|].
  split; [exact H2|].
  exact (proj2 (hasDateOrTime_disjunction (mk_pdtContext 48)) H2).
Defined.

(** X4: the legacy code loses nothing of the two queries: bit 0 of
    [dateTimeFlag] is [hasDate], bit 1 is [hasTime], and no other bit is
    set. *)
Theorem dateTimeFlag_decodes (c : pdtContext) :
  Z.testbit (dateTimeFlag c) 0 = hasDate c
  /\ Z.testbit (dateTimeFlag c) 1 = hasTime c
  /\ (forall n, n <> 0 -> n <> 1 -> Z.testbit (dateTimeFlag c) n = false)
  /\ (dateTimeFlag c = 0 <-> hasDate c = false /\ hasTime c = false).
Proof.
  unfold dateTimeFlag, py_and.
  destruct (hasDate c), (hasTime c); simpl;
    (split; [reflexivity|]); (split; [reflexivity|]); split;
    try (intros [|[|[]|]|] H0 H1; try reflexivity; congruence);
    split; try discriminate; try tauto; intros []; discriminate.
Qed.

Lemma dateTimeFlag_decodes_example :
  Z.testbit (dateTimeFlag (mk_pdtContext 9)) 0 = hasDate (mk_pdtContext 9)
  /\ Z.testbit (dateTimeFlag (mk_pdtContext 9)) 2 = false.
Proof.
  destruct (dateTimeFlag_decodes (mk_pdtContext 9)) as (H0 & _ & Hn & _).
  split; [exact H0|]. apply Hn; discriminate.
Defined.

(** ** Labels *)

Lemma lor_flag_queries (z : Z) :
  z ∈ [1; 2; 4; 8; 16; 32; 64; 128; 256] ->
  (Z.land z ACU_DATE = z /\ Z.land z ACU_TIME = 0)
  \/ (Z.land z ACU_TIME = z /\ Z.land z ACU_DATE = 0).
Proof.
  intros H.
  repeat (apply elem_of_cons in H; destruct H as [->|H];
          [vm_compute; tauto|]).
  inversion H.
Qed.

(** X5: a label of the table is a date label or a time label: updating with it
    succeeds, makes the query of its kind true, and leaves the other query
    as it was. *)
Theorem label_sets_one_query (s : string) (z : Z) (c : pdtContext) :
  _ACCURACY_REVERSE_MAPPING !! s = Some z ->
  let c' := mk_pdtContext (Z.lor (accuracy c) z) in
  updateAccuracy [PyStr s] c = (Return tt, c')
  /\ z <> 0
  /\ ((Z.land z ACU_DATE = z /\ hasDate c' = true /\ hasTime c' = hasTime c)
      \/ (Z.land z ACU_TIME = z /\ hasTime c' = true
          /\ hasDate c' = hasDate c)).
Proof.
  intros Hs c'.
  pose proof (reverse_mapping_flag s z Hs) as Hz.
  assert (Hnz : z <> 0).
  { intros ->. revert Hz. clear. intros H.
    repeat (apply elem_of_cons in H; destruct H as [H|H]; [discriminate|]).
    inversion H. }
  split; [|split; [exact Hnz|]].
  - apply updateAccuracy_cons_resolved with (rest := []) (c := c).
    simpl. unfold getitem. rewrite Hs. reflexivity.
  - destruct (lor_flag_queries z Hz) as [[Hd Ht]|[Ht Hd]].
    + left. split; [exact Hd|]. unfold hasDate, hasTime, c'. simpl.
      rewrite !Z.land_lor_distr_l, Hd, Ht, Z.lor_0_r.
      split; [|reflexivity].
      apply bool_true_iff. rewrite Z.lor_eq_0_iff. tauto.
    + right. split; [exact Ht|]. unfold hasDate, hasTime, c'. simpl.
      rewrite !Z.land_lor_distr_l, Hd, Ht, Z.lor_0_r.
      split; [|reflexivity].
      apply bool_true_iff. rewrite Z.lor_eq_0_iff. tauto.
Qed.

Lemma label_sets_one_query_midnight :
  _ACCURACY_REVERSE_MAPPING !! "midnight" = Some ACU_HALFDAY
  /\ updateAccuracy [PyStr "midnight"] (mk_pdtContext 4)
     = (Return tt, mk_pdtContext 20)
  /\ hasTime (mk_pdtContext 20) = true
  /\ hasDate (mk_pdtContext 20) = hasDate (mk_pdtContext 4).
Proof.
  assert (H : _ACCURACY_REVERSE_MAPPING !! "midnight" = Some ACU_HALFDAY)
    by (vm_compute; reflexivity).
  destruct (label_sets_one_query "midnight" ACU_HALFDAY (mk_pdtContext 4) H)
    as (Hrun & _ & [(Hd & _)|(_ & Ht & Hsame)]).
  - vm_compute in Hd. discriminate Hd.
  - split; [exact H|]. split; [exact Hrun|]. split; [exact Ht|exact Hsame].
Defined.

(** ** Equality and merging *)

Lemma eq_true_iff (c1 c2 : pdtContext) :
  __eq__ c1 c2 = true <-> accuracy c1 = accuracy c2.
Proof. unfold __eq__. apply Z.eqb_eq. Qed.

(** X6: merging [B] into [A] leaves [A] equal to what it was exactly when every
    bit of [B] is already set in [A]. *)
Theorem update_noop_iff_subset (A B : pdtContext) :
  __eq__ (Py.exec (update B) A) A = true
  <-> Z.land (accuracy A) (accuracy B) = accuracy B.
Proof.
  rewrite eq_true_iff. unfold Py.exec. rewrite update_run. simpl.
  apply lor_absorbs.
Qed.

(** X7: two contexts built by calls whose elements all resolve compare equal
    exactly when initial mask and resolved flags OR to the same integer,
    however the flags were spelled, grouped or ordered. *)
Theorem eq_after_updates (c1 c2 : pdtContext) (accs1 accs2 : list pyval) :
  Forall resolves accs1 ->
  Forall resolves accs2 ->
  __eq__ (Py.exec (updateAccuracy accs1) c1)
         (Py.exec (updateAccuracy accs2) c2) = true
  <-> Z.lor (accuracy c1) (union (flags_of accs1))
      = Z.lor (accuracy c2) (union (flags_of accs2)).
Proof.
  intros H1 H2. rewrite eq_true_iff. unfold Py.exec.
  rewrite (updateAccuracy_resolved _ H1), (updateAccuracy_resolved _ H2).
  reflexivity.
Qed.

Lemma eq_after_updates_example :
  Forall resolves [PyStr "years"; PyStr "month"]
  /\ Forall resolves [PyInt 3]
  /\ __eq__ (Py.exec (updateAccuracy [PyStr "years"; PyStr "month"])
               (__init__ 0))
            (Py.exec (updateAccuracy [PyInt 3]) (__init__ 0)) = true.
Proof.
  assert (H1 : Forall resolves [PyStr "years"; PyStr "month"]).
  { repeat constructor; eexists; vm_compute; reflexivity. }
  assert (H2 : Forall resolves [PyInt 3]).
  { repeat constructor; eexists; vm_compute; reflexivity. }
  split; [exact H1|]. split; [exact H2|].
  apply (proj2 (eq_after_updates (__init__ 0) (__init__ 0) _ _ H1 H2)).
  vm_compute. reflexivity.
Defined.

(** X8: one call with all the arguments does what the same arguments do when
    split over successive calls: same outcome, same exception if any, same
    mask left behind. *)
Theorem updateAccuracy_split_calls (calls : list (list pyval))
    (c : pdtContext) :
  updateAccuracy (concat calls) c = updateAccuracy_calls calls c.
Proof.
  revert c. induction calls as [|accs calls IH]; intros c.
  - reflexivity.
  - simpl. rewrite updateAccuracy_app. unfold Py.bind.
    destruct (updateAccuracy accs c) as [[[]|e] c'].
    + apply IH.
    + reflexivity.
Qed.

(** ** [__repr__] *)

Lemma union_land_zero (flags : list Z) (a : Z) :
  Z.land (union flags) a = 0 <-> Forall (fun z => Z.land z a = 0) flags.
Proof.
  induction flags as [|z flags IH].
  - split; [constructor | reflexivity].
  - rewrite union_cons, Z.land_lor_distr_l, Z.lor_eq_0_iff, IH. split.
    + intros [Hz Hall]. constructor; assumption.
    + intros Hall. inversion Hall; subst. tauto.
Qed.

Lemma flags_set_nil (mapping : list (Z * string)) (c : pdtContext) :
  flags_set mapping c = []
  <-> Forall (fun z => Z.land z (accuracy c) = 0) (fst <$> mapping).
Proof.
  induction mapping as [|[acc name] mapping IH]; simpl.
  - split; [constructor | reflexivity].
  - destruct (bool_ (Z.land acc (accuracy c))) eqn:Hb.
    + apply bool_true_iff in Hb. split; [discriminate|].
      intros Hall. inversion Hall; subst. contradiction.
    + apply bool_false_iff in Hb. rewrite IH. split.
      * intros Hall. constructor; assumption.
      * intros Hall. inversion Hall; subst. assumption.
Qed.

Lemma flags_set_nil_named (c : pdtContext) :
  flags_set _ACCURACY_MAPPING c = [] <-> Z.land (accuracy c) ACU_ALL = 0.
Proof.
  rewrite flags_set_nil, <- union_land_zero, Z.land_comm. reflexivity.
Qed.

(** X9: [__repr__] shows no flag, that is, returns the text [pdtContext()],
    exactly for the contexts with neither [hasDate] nor [hasTime]. *)
Theorem repr_empty_iff (c : pdtContext) :
  __repr__ c = "pdtContext()" <-> hasDate c = false /\ hasTime c = false.
Proof.
  rewrite <- orb_false_iff, date_or_time_named, bool_false_iff.
  rewrite <- flags_set_nil_named. unfold __repr__. split.
  - destruct (flags_set _ACCURACY_MAPPING c) as [|p l]; [reflexivity|].
    cbn. intros H. discriminate H.
  - intros ->. reflexivity.
Qed.

Lemma pow2_land (k a : Z) :
  0 <= k -> Z.land (2 ^ k) a = if Z.testbit a k then 2 ^ k else 0.
Proof.
  intros Hk. apply Z.bits_inj'. intros n Hn. rewrite Z.land_spec.
  destruct (Z.eq_dec n k) as [-> | Hnk].
  - rewrite Z.pow2_bits_true by lia.
    destruct (Z.testbit a k); [|rewrite Z.bits_0; reflexivity].
    rewrite Z.pow2_bits_true by lia. reflexivity.
  - rewrite Z.pow2_bits_false by lia.
    destruct (Z.testbit a k); [|rewrite Z.bits_0; reflexivity].
    rewrite Z.pow2_bits_false by lia. reflexivity.
Qed.

Lemma single_flag_land (z a : Z) :
  z ∈ [1; 2; 4; 8; 16; 32; 64; 128; 256] ->
  Z.land z a = 0 \/ Z.land z a = z.
Proof.
  assert (Hpow : forall k, 0 <= k -> Z.land (2 ^ k) a = 0
                                    \/ Z.land (2 ^ k) a = 2 ^ k).
  { intros k Hk. rewrite (pow2_land k a Hk). destruct (Z.testbit a k); auto. }
  intros H.
  apply elem_of_cons in H; destruct H as [->|H]; [apply (Hpow 0); lia|].
  apply elem_of_cons in H; destruct H as [->|H]; [apply (Hpow 1); lia|].
  apply elem_of_cons in H; destruct H as [->|H]; [apply (Hpow 2); lia|].
  apply elem_of_cons in H; destruct H as [->|H]; [apply (Hpow 3); lia|].
  apply elem_of_cons in H; destruct H as [->|H]; [apply (Hpow 4); lia|].
  apply elem_of_cons in H; destruct H as [->|H]; [apply (Hpow 5); lia|].
  apply elem_of_cons in H; destruct H as [->|H]; [apply (Hpow 6); lia|].
  apply elem_of_cons in H; destruct H as [->|H]; [apply (Hpow 7); lia|].
  apply elem_of_cons in H; destruct H as [->|H]; [apply (Hpow 8); lia|].
  inversion H.
Qed.

Lemma union_flags_set (mapping : list (Z * string)) (c : pdtContext) :
  Forall (fun z => Z.land z (accuracy c) = 0 \/ Z.land z (accuracy c) = z)
    (fst <$> mapping) ->
  union (fst <$> flags_set mapping c)
  = Z.land (union (fst <$> mapping)) (accuracy c).
Proof.
  induction mapping as [|[acc name] mapping IH]; intros Hall.
  - reflexivity.
  - rewrite fmap_cons in Hall. inversion Hall as [|? ? Hacc Hrest]; subst.
    simpl in Hacc. specialize (IH Hrest).
    rewrite fmap_cons, union_cons, Z.land_lor_distr_l, <- IH. simpl.
    destruct (bool_ (Z.land acc (accuracy c))) eqn:Hb.
    + apply bool_true_iff in Hb. destruct Hacc as [H0|Hz]; [contradiction|].
      rewrite fmap_cons, union_cons, Hz. reflexivity.
    + apply bool_false_iff in Hb. rewrite Hb. reflexivity.
Qed.

Lemma flags_set_elem (mapping : list (Z * string)) (c : pdtContext) p :
  p ∈ flags_set mapping c -> p ∈ mapping.
Proof.
  induction mapping as [|[acc name] mapping IH]; simpl; [auto|].
  destruct (bool_ (Z.land acc (accuracy c))).
  - intros H. apply elem_of_cons in H. destruct H as [->|H].
    + apply list_elem_of_here.
    + apply list_elem_of_further, IH, H.
  - intros H. apply list_elem_of_further, IH, H.
Qed.

Lemma union_flags_set_named (c : pdtContext) :
  union (fst <$> flags_set _ACCURACY_MAPPING c)
  = Z.land (accuracy c) ACU_ALL.
Proof.
  rewrite union_flags_set.
  - rewrite Z.land_comm. reflexivity.
  - rewrite mapping_flags. apply Forall_forall. intros z Hz.
    apply single_flag_land, Hz.
Qed.

Lemma labels_resolve (l : list (Z * string)) :
  Forall (fun p => p ∈ _ACCURACY_MAPPING) l ->
  Forall resolves (PyStr <$> (snd <$> l))
  /\ flags_of (PyStr <$> (snd <$> l)) = fst <$> l.
Proof.
  induction 1 as [|[acc name] l Hp _ [IH1 IH2]].
  - split; [constructor | reflexivity].
  - assert (Hres : resolve (PyStr name) = Return acc).
    { simpl. unfold getitem. rewrite (mapping_in_reverse _ _ Hp).
      reflexivity. }
    split.
    + rewrite !fmap_cons. constructor; [exists acc; exact Hres | exact IH1].
    + rewrite !fmap_cons, (flags_of_cons_resolved _ _ _ Hres), IH2.
      reflexivity.
Qed.

(** X10: the flags [__repr__] lists are the named bits of the mask: passing
    their names back to [updateAccuracy] as labels succeeds and ORs exactly
    [accuracy & (ACU_DATE | ACU_TIME)] into the receiving context. *)
Theorem repr_names_round_trip (c c0 : pdtContext) :
  updateAccuracy (PyStr <$> (snd <$> flags_set _ACCURACY_MAPPING c)) c0
  = (Return tt,
     mk_pdtContext (Z.lor (accuracy c0) (Z.land (accuracy c) ACU_ALL))).
Proof.
  destruct (labels_resolve (flags_set _ACCURACY_MAPPING c)) as [Hres Hflags].
  { apply Forall_forall. intros p. apply flags_set_elem. }
  rewrite (updateAccuracy_resolved _ Hres), Hflags, union_flags_set_named.
  reflexivity.
Qed.

(** ** [__repr__] tells the named bits apart *)

Lemma string_app_assoc (a b c : string) :
  String.append (String.append a b) c = String.append a (String.append b c).
Proof.
  induction a as [|ch a IH]; [reflexivity|].
  change (String ch (String.append (String.append a b) c)
          = String ch (String.append a (String.append b c))).
  rewrite IH. reflexivity.
Qed.

Lemma concat_terminated (sep x : string) (l : list string) :
  String.append (String.concat sep (x :: l)) ")"
  = String.append x
      (foldr (fun y r => String.append sep (String.append y r)) ")" l).
Proof.
  revert x. induction l as [|y l IH]; intros x.
  - reflexivity.
  - change (String.concat sep (x :: y :: l))
      with (String.append x (String.append sep (String.concat sep (y :: l)))).
    rewrite !string_app_assoc, IH. reflexivity.
Qed.

(** No formatted flag name is a prefix of another one. *)
Lemma flag_names_prefix_free (p q : Z * string) (u v : string) :
  p ∈ _ACCURACY_MAPPING -> q ∈ _ACCURACY_MAPPING ->
  String.append (String.append "pdtContext.ACU_" (upper (snd p))) u
  = String.append (String.append "pdtContext.ACU_" (upper (snd q))) v ->
  p = q /\ u = v.
Proof.
  intros Hp Hq. rewrite !string_app_assoc. intros H.
  apply String.app_inj in H.
  unfold _ACCURACY_MAPPING in Hp, Hq.
  repeat (apply elem_of_cons in Hp; destruct Hp as [->|Hp]);
    try (inversion Hp; fail);
    repeat (apply elem_of_cons in Hq; destruct Hq as [->|Hq]);
    try (inversion Hq; fail);
    cbn in H; simplify_eq; split; reflexivity.
Qed.

Lemma closing_inj (l1 l2 : list (Z * string)) :
  Forall (fun p => p ∈ _ACCURACY_MAPPING) l1 ->
  Forall (fun p => p ∈ _ACCURACY_MAPPING) l2 ->
  foldr (fun y r => String.append " | " (String.append y r)) ")"
    ((fun p => String.append "pdtContext.ACU_" (upper (snd p))) <$> l1)
  = foldr (fun y r => String.append " | " (String.append y r)) ")"
      ((fun p => String.append "pdtContext.ACU_" (upper (snd p))) <$> l2) ->
  l1 = l2.
Proof.
  intros H1. revert l2.
  induction H1 as [|p l1 Hp _ IH]; intros l2 H2 H;
    destruct H2 as [|q l2 Hq H2].
  - reflexivity.
  - cbn in H. discriminate H.
  - cbn in H. discriminate H.
  - rewrite !fmap_cons in H. simpl foldr in H.
    apply String.app_inj in H.
    destruct (flag_names_prefix_free _ _ _ _ Hp Hq H) as [-> Hrest].
    f_equal. apply IH; assumption.
Qed.

Lemma flags_set_named (mapping : list (Z * string)) (c : pdtContext) :
  Forall (fun z => Z.land z ACU_ALL = z) (fst <$> mapping) ->
  flags_set mapping (mk_pdtContext (Z.land (accuracy c) ACU_ALL))
  = flags_set mapping c.
Proof.
  induction mapping as [|[acc name] mapping IH]; intros Hall.
  - reflexivity.
  - rewrite fmap_cons in Hall. inversion Hall as [|? ? Hacc Hrest]; subst.
    simpl in Hacc. cbn [flags_set accuracy].
    assert (Heq : Z.land acc (Z.land (accuracy c) ACU_ALL)
                  = Z.land acc (accuracy c)).
    { rewrite (Z.land_comm (accuracy c)), Z.land_assoc, Hacc. reflexivity. }
    rewrite Heq, (IH Hrest). reflexivity.
Qed.

Lemma repr_flags_inj (c1 c2 : pdtContext) :
  __repr__ c1 = __repr__ c2 ->
  flags_set _ACCURACY_MAPPING c1 = flags_set _ACCURACY_MAPPING c2.
Proof.
  unfold __repr__.
  assert (H1 : Forall (fun p => p ∈ _ACCURACY_MAPPING)
                 (flags_set _ACCURACY_MAPPING c1)).
  { apply Forall_forall. intros p. apply flags_set_elem. }
  assert (H2 : Forall (fun p => p ∈ _ACCURACY_MAPPING)
                 (flags_set _ACCURACY_MAPPING c2)).
  { apply Forall_forall. intros p. apply flags_set_elem. }
  destruct H1 as [|p l1 Hp H1], H2 as [|q l2 Hq H2]; intros H.
  - reflexivity.
  - cbn in H. discriminate H.
  - cbn in H. discriminate H.
  - rewrite !fmap_cons in H. apply String.app_inj in H.
    rewrite !string_app_assoc in H. apply String.app_inj in H.
    rewrite !concat_terminated in H.
    destruct (flag_names_prefix_free _ _ _ _ Hp Hq H) as [-> Hrest].
    f_equal. apply closing_inj; assumption.
Qed.

(** X11: [__repr__] shows the named bits and nothing else: two contexts have the
    same text exactly when their masks agree on the nine named bits. *)
Theorem repr_eq_iff (c1 c2 : pdtContext) :
  __repr__ c1 = __repr__ c2
  <-> Z.land (accuracy c1) ACU_ALL = Z.land (accuracy c2) ACU_ALL.
Proof.
  split.
  - intros H. apply repr_flags_inj in H.
    rewrite <- !union_flags_set_named, H. reflexivity.
  - intros H.
    assert (Hm : Forall (fun z => Z.land z ACU_ALL = z)
                   (fst <$> _ACCURACY_MAPPING)).
    { rewrite mapping_flags. apply Forall_forall. intros z.
      apply flag_in_ACU_ALL. }
    unfold __repr__.
    rewrite <- (flags_set_named _ c1 Hm), <- (flags_set_named _ c2 Hm), H.
    reflexivity.
Qed.

End ContextMore.

(** * Further properties of pdtContextStack *)

Section StackMore.

Context {A : Type}.
Implicit Types (l : pdtContextStack.local A) (s : list A) (t : nat) (x : A).

Lemma stack_cases l t :
  l !! t = None \/ l !! t = Some [] \/ exists s x, l !! t = Some (s ++ [x]).
Proof.
  destruct (l !! t) as [s|]; [|auto].
  destruct (empty_or_snoc s) as [-> | (s0 & x & ->)]; eauto.
Qed.


(** X14: [last] and [isEmpty] never change the stack, whether they return or
    raise; [pop] changes it only when it returns a frame, and [push] only
    when it returns. *)
Theorem only_success_mutates l t x :
  Py.exec (pdtContextStack.last t) l = l
  /\ Py.exec (pdtContextStack.isEmpty t) l = l
  /\ ((forall y, Py.eval (pdtContextStack.pop t) l <> Return (Some y)) ->
      Py.exec (pdtContextStack.pop t) l = l)
  /\ (Py.eval (pdtContextStack.push t x) l <> Return tt ->
      Py.exec (pdtContextStack.push t x) l = l).
Proof.
  unfold Py.exec, Py.eval.
  destruct (stack_cases l t) as [Hn | [He | (s & y & Hs)]].
  - destruct (thread_without_stack l t x Hn) as (-> & -> & -> & ->).
    simpl. auto.
  - rewrite (isEmpty_run _ _ _ He), (pop_empty _ _ He), (last_empty _ _ He),
      (push_run _ _ _ x He). simpl.
    repeat split; try reflexivity. intros H. contradiction H. reflexivity.
  - rewrite (isEmpty_run _ _ _ Hs), (pop_snoc _ _ _ _ Hs),
      (last_snoc_run _ _ _ _ Hs), (push_run _ _ _ x Hs). simpl.
    repeat split; try reflexivity.
    + intros H. contradiction (H y). reflexivity.
    + intros H. contradiction H. reflexivity.
Qed.

Lemma run_pops_empty t k :
  forall l,
    l !! t = Some [] ->
    pdtContextStack.run t (replicate k pdtContextStack.Pop) l
    = (Return (replicate k None), l).
Proof.
  induction k as [|k IH]; intros l He.
  - reflexivity.
  - change (replicate (S k) pdtContextStack.Pop)
      with (pdtContextStack.Pop :: replicate k (@pdtContextStack.Pop A)).
    rewrite (run_pop_cons_empty _ _ _ He). unfold Py.bind.
    rewrite (IH _ He). reflexivity.
Qed.

(** X15: any number [k] of pops on a stack of depth [n]: the first [min k n]
    return the frames from the top down, the [k - n] that follow return
    [None], and the [n - k] deepest frames stay. *)
Theorem pops_drain l t s (k : nat) :
  l !! t = Some s ->
  pdtContextStack.run t (replicate k pdtContextStack.Pop) l
  = (Return ((Some <$> take k (reverse s)) ++ replicate (k - length s) None),
     <[t := take (length s - k) s]> l).
Proof.
  intros Hs. destruct (Nat.le_gt_cases k (length s)) as [Hle | Hgt].
  - rewrite (run_pops _ _ _ _ Hs Hle).
    replace (k - length s)%nat with 0%nat by lia.
    rewrite app_nil_r. reflexivity.
  - replace k with (length s + (k - length s))%nat at 1 by lia.
    rewrite replicate_add, run_app. unfold Py.bind.
    rewrite (run_pops _ _ _ _ Hs (Nat.le_refl _)).
    rewrite (run_pops_empty _ _ (<[t := take (length s - length s) s]> l)).
    + unfold Py.ret.
      rewrite (take_ge (reverse s) k) by (rewrite length_reverse; lia).
      rewrite (take_ge (reverse s) (length s))
        by (rewrite length_reverse; lia).
      replace (length s - k)%nat with (length s - length s)%nat by lia.
      reflexivity.
    + rewrite Nat.sub_diag. apply lookup_insert_eq.
Qed.

(** ** Several threads on one stack object *)

Lemma observe_cases l t (c : pdtContextStack.call A) :
  (l !! t = None
   /\ pdtContextStack.observe t c l
      = (Return (Raise (AttributeError "stack")), l))
  \/ (exists s r s',
        l !! t = Some s
        /\ pdtContextStack.observe t c l = (Return (Return r), <[t := s']> l)
        /\ forall l',
             l' !! t = Some s ->
             pdtContextStack.observe t c l'
             = (Return (Return r), <[t := s']> l')).
Proof.
  destruct (stack_cases l t) as [Hn | [He | (s & y & Hs)]].
  - left. split; [exact Hn|].
    destruct c as [x|]; unfold pdtContextStack.observe, Py.attempt.
    + unfold Py.bind.
      destruct (thread_without_stack l t x Hn) as (-> & _). reflexivity.
    + unfold pdtContextStack.pop, Py.try_except, Py.bind.
      rewrite (getattr_stack_None _ _ Hn). reflexivity.
  - right. destruct c as [x|].
    + exists [], None, ([] ++ [x]). split; [exact He|].
      assert (Hgen : forall l', l' !! t = Some [] ->
                pdtContextStack.observe t (pdtContextStack.Push x) l'
                = (Return (Return None), <[t := [] ++ [x]]> l')).
      { intros l' H'. unfold pdtContextStack.observe, Py.attempt, Py.bind.
        rewrite (push_run _ _ _ x H'). reflexivity. }
      split; [apply Hgen, He | exact Hgen].
    + exists [], None, []. split; [exact He|].
      assert (Hgen : forall l', l' !! t = Some [] ->
                pdtContextStack.observe t pdtContextStack.Pop l'
                = (Return (Return None), <[t := []]> l')).
      { intros l' H'. unfold pdtContextStack.observe, Py.attempt.
        rewrite (pop_empty _ _ H'), (insert_id _ _ _ H'). reflexivity. }
      split; [apply Hgen, He | exact Hgen].
  - right. destruct c as [x|].
    + exists (s ++ [y]), None, ((s ++ [y]) ++ [x]). split; [exact Hs|].
      assert (Hgen : forall l', l' !! t = Some (s ++ [y]) ->
                pdtContextStack.observe t (pdtContextStack.Push x) l'
                = (Return (Return None), <[t := (s ++ [y]) ++ [x]]> l')).
      { intros l' H'. unfold pdtContextStack.observe, Py.attempt, Py.bind.
        rewrite (push_run _ _ _ x H'). reflexivity. }
      split; [apply Hgen, Hs | exact Hgen].
    + exists (s ++ [y]), (Some y), s. split; [exact Hs|].
      assert (Hgen : forall l', l' !! t = Some (s ++ [y]) ->
                pdtContextStack.observe t pdtContextStack.Pop l'
                = (Return (Return (Some y)), <[t := s]> l')).
      { intros l' H'. unfold pdtContextStack.observe, Py.attempt.
        rewrite (pop_snoc _ _ _ _ H'). reflexivity. }
      split; [apply Hgen, Hs | exact Hgen].
Qed.

Lemma run_threads_confined t (sched : list (nat * pdtContextStack.call A)) :
  forall l l',
    l !! t = l' !! t ->
    exists rs rs' l1 l1',
      pdtContextStack.run_threads sched l = (Return rs, l1)
      /\ pdtContextStack.run_threads (filter (fun p => p.1 = t) sched) l'
         = (Return rs', l1')
      /\ filter (fun p => p.1 = t) rs = rs'
      /\ l1 !! t = l1' !! t.
Proof.
  induction sched as [|[t0 c] sched IH]; intros l l' Hll.
  - exists [], [], l, l'.
    split; [reflexivity|]. split; [reflexivity|]. split; [reflexivity|].
    exact Hll.
  - destruct (decide (t0 = t)) as [-> | Hne].
    + rewrite filter_cons_True by reflexivity.
      cbn [pdtContextStack.run_threads]. unfold Py.bind at 1 3.
      destruct (observe_cases l t c)
        as [[Hn Hobs] | (s & r & s' & Hs & Hobs & Hgen)].
      * assert (Hn' : l' !! t = None) by congruence.
        destruct (observe_cases l' t c)
          as [[_ Hobs'] | (s & r & s' & Hs & _)]; [|congruence].
        rewrite Hobs, Hobs'.
        destruct (IH l l' Hll) as (rs & rs' & l1 & l1' & H1 & H2 & H3 & H4).
        unfold Py.bind, Py.ret. rewrite H1, H2.
        exists ((t, Raise (AttributeError "stack")) :: rs),
          ((t, Raise (AttributeError "stack")) :: rs'), l1, l1'.
        split; [reflexivity|]. split; [reflexivity|]. split; [|exact H4].
        rewrite filter_cons_True by reflexivity. rewrite H3. reflexivity.
      * rewrite Hobs, (Hgen l') by congruence.
        destruct (IH (<[t := s']> l) (<[t := s']> l'))
          as (rs & rs' & l1 & l1' & H1 & H2 & H3 & H4).
        { rewrite !lookup_insert_eq. reflexivity. }
        unfold Py.bind, Py.ret. rewrite H1, H2.
        exists ((t, Return r) :: rs), ((t, Return r) :: rs'), l1, l1'.
        split; [reflexivity|]. split; [reflexivity|]. split; [|exact H4].
        rewrite filter_cons_True by reflexivity. rewrite H3. reflexivity.
    + rewrite filter_cons_False by exact Hne.
      cbn [pdtContextStack.run_threads]. unfold Py.bind at 1.
      assert (Hstep : exists r l0,
                 pdtContextStack.observe t0 c l = (Return r, l0)
                 /\ l0 !! t = l !! t).
      { destruct (observe_cases l t0 c)
          as [[Hn Hobs] | (s & r & s' & Hs & Hobs & _)].
        - eexists _, _. split; [exact Hobs | reflexivity].
        - eexists _, _. split; [exact Hobs|].
          apply lookup_insert_ne, Hne. }
      destruct Hstep as (r & l0 & Hobs & Hl0). rewrite Hobs.
      destruct (IH l0 l') as (rs & rs' & l1 & l1' & H1 & H2 & H3 & H4).
      { congruence. }
      unfold Py.bind, Py.ret. rewrite H1.
      exists ((t0, r) :: rs), rs', l1, l1'.
      split; [reflexivity|]. split; [exact H2|]. split; [|exact H4].
      rewrite filter_cons_False by exact Hne. exact H3.
Qed.

(** X16: thread confinement: in any interleaving of calls by any threads, and
    from any state, what thread [t] gets back from its calls and the
    sequence it ends with are what it would get making the same calls with
    no other thread running. *)
Theorem thread_confinement t (sched : list (nat * pdtContextStack.call A)) l :
  exists rs rs' l1 l1',
    pdtContextStack.run_threads sched l = (Return rs, l1)
    /\ pdtContextStack.run_threads (filter (fun p => p.1 = t) sched) l
       = (Return rs', l1')
    /\ filter (fun p => p.1 = t) rs = rs'
    /\ l1 !! t = l1' !! t.
Proof. apply run_threads_confined. reflexivity. Qed.

(** X17: after construction by thread [t0], no interleaving of calls ever gives
    another thread a sequence: every call made by a thread other than [t0]
    ends in [AttributeError]. *)
Theorem only_constructor_has_stack t0
    (sched : list (nat * pdtContextStack.call A)) :
  exists rs l1,
    pdtContextStack.run_threads sched (pdtContextStack.__init__ t0)
    = (Return rs, l1)
    /\ (forall t, t <> t0 -> l1 !! t = None)
    /\ Forall (fun p => p.1 <> t0 -> p.2 = Raise (AttributeError "stack")) rs.
Proof.
  assert (Hgen : forall l,
    (forall t, t <> t0 -> l !! t = None) ->
    exists rs l1,
      pdtContextStack.run_threads sched l = (Return rs, l1)
      /\ (forall t, t <> t0 -> l1 !! t = None)
      /\ Forall (fun p => p.1 <> t0 -> p.2 = Raise (AttributeError "stack"))
           rs).
  { induction sched as [|[t c] sched IH]; intros l Hinv.
    - exists [], l. split; [reflexivity|]. split; [exact Hinv | constructor].
    - cbn [pdtContextStack.run_threads]. unfold Py.bind at 1.
      destruct (observe_cases l t c)
        as [[Hn Hobs] | (s & r & s' & Hs & Hobs & _)]; rewrite Hobs.
      + destruct (IH l Hinv) as (rs & l1 & H1 & H2 & H3).
        unfold Py.bind, Py.ret. rewrite H1.
        eexists _, _. split; [reflexivity|]. split; [exact H2|].
        constructor; [intros _; reflexivity | exact H3].
      + assert (Ht : t = t0).
        { destruct (decide (t = t0)) as [Heq|Hne]; [exact Heq|].
          rewrite (Hinv t Hne) in Hs. discriminate. }
        subst t.
        destruct (IH (<[t0 := s']> l)) as (rs & l1 & H1 & H2 & H3).
        { intros t Hne. rewrite lookup_insert_ne by congruence.
          apply Hinv, Hne. }
        unfold Py.bind, Py.ret. rewrite H1.
        eexists _, _. split; [reflexivity|]. split; [exact H2|].
        constructor; [intros Hne; contradiction Hne; reflexivity | exact H3]. }
  apply Hgen. intros t Hne. apply init_lookup_other. congruence.
Qed.

End StackMore.

Lemma only_success_mutates_example :
  let l : pdtContextStack.local Z := <[0%nat := []]> ∅ in
  Py.exec (pdtContextStack.last 0) l = l
  /\ Py.exec (pdtContextStack.isEmpty 0) l = l
  /\ Py.exec (pdtContextStack.pop 0) l = l
  /\ Py.exec (pdtContextStack.push 1 7) l = l.
Proof.
  intros l.
  destruct (only_success_mutates l 0%nat 7) as (H1 & H2 & H3 & _).
  destruct (only_success_mutates l 1%nat 7) as (_ & _ & _ & H4).
  split; [exact H1|]. split; [exact H2|]. split.
  - apply H3. intros y. vm_compute. discriminate.
  - apply H4. vm_compute. discriminate.
Defined.

Lemma pops_drain_example :
  let l : pdtContextStack.local Z := <[0%nat := [1; 2; 3]]> ∅ in
  l !! 0%nat = Some [1; 2; 3]
  /\ pdtContextStack.run 0 (replicate 5 pdtContextStack.Pop) l
     = (Return [Some 3; Some 2; Some 1; None; None], <[0%nat := []]> l).
Proof.
  intros l. split; [reflexivity|].
  apply (pops_drain l 0%nat [1; 2; 3] 5). reflexivity.
Defined.

Lemma only_constructor_has_stack_example :
  exists rs l1,
    pdtContextStack.run_threads
      [(1%nat, pdtContextStack.Push 5); (0%nat, pdtContextStack.Push 6);
       (1%nat, pdtContextStack.Pop)]
      (pdtContextStack.__init__ 0)
    = (Return rs, l1)
    /\ l1 !! 1%nat = None
    /\ rs = [(1%nat, Raise (AttributeError "stack")); (0%nat, Return None);
             (1%nat, Raise (AttributeError "stack"))].
Proof.
  destruct (only_constructor_has_stack 0%nat
              [(1%nat, pdtContextStack.Push 5); (0%nat, pdtContextStack.Push 6);
               (1%nat, pdtContextStack.Pop)])
    as (rs & l1 & Hrun & Hnone & Hall).
  exists rs, l1. split; [exact Hrun|]. split.
  - apply Hnone. discriminate.
  - vm_compute in Hrun. injection Hrun as <- _. reflexivity.
Defined.
